(** * Complaint tracking: submission, listing, triage and message threads

    A shallow embedding of the complaint application: the relational schema
    and its row-level-security policies (the SQL migration), and the page
    handlers that talk to the store ([SubmitComplaint], [Dashboard],
    [ManagerDashboard], [ComplaintDetail]).

    Handlers are state-passing functions over the store [db]; values the
    platform draws on its own (generated ids, clock readings) are explicit
    arguments. *)

From Stdlib Require Import NArith Ascii String.
From stdpp Require Import gmap list sorting strings pretty.

Local Open Scope string_scope.
Local Open Scope list_scope.
Local Open Scope N_scope.

(** ** JavaScript strings

    A JavaScript string is a sequence of UTF-16 code units; [length] counts
    code units. *)

Abbreviation js_string := (list N).

(** A source literal (ASCII) as a JavaScript string. *)
Definition js (s : string) : js_string :=
  N_of_ascii <$> list_ascii_of_string s.

(** ECMAScript [WhiteSpace] and [LineTerminator] code points, the ones
    [String.prototype.trim] strips. *)
Definition is_white_space (c : N) : bool :=
  existsb (N.eqb c)
    [9; 10; 11; 12; 13; 32; 160; 5760; 8232; 8233; 8239; 8287; 12288; 65279]
  || ((8192 <=? c) && (c <=? 8202)).

Fixpoint trimStart (s : js_string) : js_string :=
  match s with
  | [] => []
  | c :: s' => if is_white_space c then trimStart s' else s
  end.

Definition trimEnd (s : js_string) : js_string :=
  reverse (trimStart (reverse s)).

Definition trim (s : js_string) : js_string := trimEnd (trimStart s).

(** [s.split(sep)] for a one-character separator: never empty. *)
Fixpoint split_on (sep : N) (s : js_string) : list js_string :=
  match s with
  | [] => [[]]
  | c :: s' =>
      if c =? sep then [] :: split_on sep s'
      else match split_on sep s' with
           | [] => [[c]]
           | w :: ws => (c :: w) :: ws
           end
  end.

(** [`${n}`] for a non-negative integer. *)
Definition decimal (n : N) : js_string := js (pretty n).

(** Values a form field or an object property can hold here. *)
Inductive js_value :=
  | js_undefined
  | js_null
  | js_str (s : js_string).

(** [v || null] on such a value: the empty string is falsy. *)
Definition or_null (v : js_value) : js_value :=
  match v with
  | js_str [] => js_null
  | js_str s => js_str s
  | _ => js_null
  end.

(** ** The validation schema of the submission form (zod) *)

Inductive zod_issue :=
  | invalid_type (path : string)
  | too_small (path : string) (message : string)
  | too_big (path : string) (message : string)
  | invalid_enum_value (path : string).

(** [z.string().trim().min(lo, m1).max(hi, m2)]: a non-string is an
    [invalid_type]; otherwise the input is trimmed and both bounds are
    checked on the trimmed text. *)
Definition z_string_trim (path : string)
    (lo : option (nat * string)) (hi : option (nat * string))
    (input : js_value) : list zod_issue :=
  match input with
  | js_str s =>
      let t := trim s in
      match lo with
      | Some (n, m) => if Nat.ltb (length t) n then [too_small path m] else []
      | None => []
      end ++
      match hi with
      | Some (n, m) => if Nat.ltb n (length t) then [too_big path m] else []
      | None => []
      end
  | _ => [invalid_type path]
  end.

(** [schema.optional()]: only [undefined] is let through unchecked. *)
Definition z_optional (inner : js_value → list zod_issue)
    (input : js_value) : list zod_issue :=
  match input with
  | js_undefined => []
  | _ => inner input
  end.

(** [z.enum(values)]. *)
Definition z_enum (path : string) (values : list string)
    (input : js_value) : list zod_issue :=
  match input with
  | js_str s =>
      if existsb (λ v, bool_decide (js v = s)) values then []
      else [invalid_enum_value path]
  | _ => [invalid_type path]
  end.

Definition category_values : list string :=
  ["facilities"; "equipment"; "network"; "classroom"; "hygiene"; "safety";
   "other"].

Definition priority_values : list string := ["low"; "medium"; "high"].

(** The object [handleSubmit] reads from the form. *)
Record form_data := {
  fd_title : js_value;
  fd_description : js_value;
  fd_category : js_value;
  fd_hub : js_value;
  fd_room : js_value;
  fd_priority : js_value;
}.

(** [complaintSchema.parse(data)]: the issues found, in key order; the parse
    throws a [ZodError] carrying them unless there are none. *)
Definition complaintSchema (data : form_data) : list zod_issue :=
  z_string_trim "title"
    (Some (5%nat, "Title must be at least 5 characters"))
    (Some (200%nat, "Title too long")) (fd_title data) ++
  z_string_trim "description"
    (Some (20%nat, "Description must be at least 20 characters"))
    (Some (2000%nat, "Description too long")) (fd_description data) ++
  z_enum "category" category_values (fd_category data) ++
  z_string_trim "hub"
    (Some (2%nat, "Hub is required"))
    (Some (100%nat, "Hub name too long")) (fd_hub data) ++
  z_optional (z_string_trim "room" None (Some (100%nat, "Room name too long")))
    (fd_room data) ++
  z_enum "priority" priority_values (fd_priority data).

(** ** Attachments chosen in the form *)

Record file := {
  file_name : js_string;
  file_size : N;
  file_type : js_string;
}.

(** [handleFileChange]: drop every selected file over 10 MiB, append the
    rest to the files already chosen and keep the first five.  The second
    component lists the names shown in a "too large" error toast. *)
Definition handleFileChange (prev selectedFiles : list file)
    : list file * list js_string :=
  let too_large f := 10 * 1024 * 1024 <? file_size f in
  let validFiles := filter (λ f, too_large f = false) selectedFiles in
  (take 5 (prev ++ validFiles),
   file_name <$> filter (λ f, too_large f = true) selectedFiles).

(** [removeFile]. *)
Definition removeFile (prev : list file) (index : nat) : list file :=
  delete index prev.

(** ** SQL values

    A [uuid] is kept in its text form, the form the client sees.  A nullable
    column is an [option]; a SQL boolean expression is three-valued. *)

Abbreviation uuid := (list N).

Definition is_hex_digit (c : N) : bool :=
  ((48 <=? c) && (c <=? 57)) || ((97 <=? c) && (c <=? 102)).

(** The canonical text of a uuid: 8-4-4-4-12 hexadecimal digits, the
    groups joined by hyphens. *)
Definition uuid_char (i : nat) (c : N) : bool :=
  if bool_decide (i ∈ [8; 13; 18; 23]%nat) then c =? 45 else is_hex_digit c.

Definition is_uuid (s : js_string) : bool :=
  bool_decide (length s = 36%nat) && forallb id (imap uuid_char s).

Definition sql_bool := option bool.

Definition sql_eq `{EqDecision A} (a b : option A) : sql_bool :=
  match a, b with
  | Some x, Some y => Some (bool_decide (x = y))
  | _, _ => None
  end.

Definition sql_or (a b : sql_bool) : sql_bool :=
  match a, b with
  | Some true, _ | _, Some true => Some true
  | Some false, Some false => Some false
  | _, _ => None
  end.

Definition sql_and (a b : sql_bool) : sql_bool :=
  match a, b with
  | Some false, _ | _, Some false => Some false
  | Some true, Some true => Some true
  | _, _ => None
  end.

Definition sql_is_null {A} (a : option A) : sql_bool :=
  Some (match a with Some _ => false | None => true end).

Definition sql_is_not_null {A} (a : option A) : sql_bool :=
  Some (match a with Some _ => true | None => false end).

(** A policy lets a row through only when its expression is true; false
    and NULL both keep the row out. *)
Definition holds (b : sql_bool) : bool :=
  match b with
  | Some true => true
  | _ => false
  end.

(** ** The schema *)

Inductive user_role := student | manager | admin.
Inductive complaint_status :=
  new | acknowledged | in_progress | resolved | closed.
Inductive complaint_priority := low | medium | high.
Inductive complaint_category :=
  facilities | equipment | network | classroom | hygiene | safety | other.

#[global] Instance user_role_eq_dec : EqDecision user_role.
Proof. solve_decision. Defined.
#[global] Instance complaint_status_eq_dec : EqDecision complaint_status.
Proof. solve_decision. Defined.
#[global] Instance complaint_priority_eq_dec : EqDecision complaint_priority.
Proof. solve_decision. Defined.
#[global] Instance complaint_category_eq_dec : EqDecision complaint_category.
Proof. solve_decision. Defined.

(** Input of a text value into an enum column; [None] is the store's
    "invalid input value for enum" error. *)
Definition complaint_category_in (s : js_string) : option complaint_category :=
  if bool_decide (s = js "facilities") then Some facilities
  else if bool_decide (s = js "equipment") then Some equipment
  else if bool_decide (s = js "network") then Some network
  else if bool_decide (s = js "classroom") then Some classroom
  else if bool_decide (s = js "hygiene") then Some hygiene
  else if bool_decide (s = js "safety") then Some safety
  else if bool_decide (s = js "other") then Some other
  else None.

Definition complaint_priority_in (s : js_string) : option complaint_priority :=
  if bool_decide (s = js "low") then Some low
  else if bool_decide (s = js "medium") then Some medium
  else if bool_decide (s = js "high") then Some high
  else None.

(** A row of [profiles]; the primary key [id] is the key of the table. *)
Record profile := {
  p_name : js_string;
  p_role : user_role;
  p_hub : option js_string;
}.

(** A row of [complaints]. *)
Record complaint := {
  c_id : uuid;
  c_user_id : option uuid;
  c_manager_id : option uuid;
  c_title : js_string;
  c_description : js_string;
  c_category : complaint_category;
  c_hub : js_string;
  c_room : option js_string;
  c_priority : complaint_priority;
  c_status : complaint_status;
  c_is_anonymous : option bool;
  c_sla_due_at : option N;
  c_created_at : N;
  c_updated_at : N;
}.

(** A row of [attachments]. *)
Record attachment := {
  a_id : uuid;
  a_complaint_id : uuid;
  a_uploader_id : option uuid;
  a_file_path : js_string;
  a_file_name : js_string;
  a_mime_type : js_string;
  a_file_size : option N;
  a_created_at : N;
}.

(** A row of [messages]. *)
Record message := {
  m_id : uuid;
  m_complaint_id : uuid;
  m_sender_id : option uuid;
  m_body : js_string;
  m_is_internal : option bool;
  m_created_at : N;
}.

#[global] Instance profile_eq_dec : EqDecision profile.
Proof. solve_decision. Defined.
#[global] Instance complaint_eq_dec : EqDecision complaint.
Proof. solve_decision. Defined.
#[global] Instance attachment_eq_dec : EqDecision attachment.
Proof. solve_decision. Defined.
#[global] Instance message_eq_dec : EqDecision message.
Proof. solve_decision. Defined.

(** The store: the four tables the pages use and the objects of the
    storage buckets, keyed by bucket id and object name. *)
Record db := {
  db_profiles : gmap uuid profile;
  db_complaints : list complaint;
  db_attachments : list attachment;
  db_messages : list message;
  db_objects : gmap (js_string * js_string) file;
}.

Definition set_complaints (d : db) (cs : list complaint) : db :=
  {| db_profiles := db_profiles d; db_complaints := cs;
     db_attachments := db_attachments d; db_messages := db_messages d;
     db_objects := db_objects d |}.

Definition set_attachments (d : db) (l : list attachment) : db :=
  {| db_profiles := db_profiles d; db_complaints := db_complaints d;
     db_attachments := l; db_messages := db_messages d;
     db_objects := db_objects d |}.

Definition set_messages (d : db) (l : list message) : db :=
  {| db_profiles := db_profiles d; db_complaints := db_complaints d;
     db_attachments := db_attachments d; db_messages := l;
     db_objects := db_objects d |}.

Definition set_objects (d : db) (o : gmap (js_string * js_string) file) : db :=
  {| db_profiles := db_profiles d; db_complaints := db_complaints d;
     db_attachments := db_attachments d; db_messages := db_messages d;
     db_objects := o |}.

(** ** Row-level security

    [uid] is [auth.uid()]: the id of the authenticated caller, NULL for an
    anonymous request. *)

(** [EXISTS (SELECT 1 FROM profiles WHERE id = auth.uid()
             AND role IN ('manager', 'admin'))]. *)
Definition is_manager_or_admin (d : db) (uid : option uuid) : bool :=
  match uid with
  | Some u =>
      match db_profiles d !! u with
      | Some p => bool_decide (p_role p = manager ∨ p_role p = admin)
      | None => false
      end
  | None => false
  end.

(** "Students can view own complaints", FOR SELECT USING. *)
Definition complaints_select_policy (d : db) (uid : option uuid)
    (c : complaint) : sql_bool :=
  sql_or (sql_eq uid (c_user_id c)) (Some (is_manager_or_admin d uid)).

(** "Students can create complaints", FOR INSERT WITH CHECK. *)
Definition complaints_insert_policy (uid : option uuid) (c : complaint)
    : sql_bool :=
  sql_or (sql_eq uid (c_user_id c)) (sql_eq (c_is_anonymous c) (Some true)).

(** "Managers can update complaints", FOR UPDATE USING. *)
Definition complaints_update_policy (d : db) (uid : option uuid)
    (c : complaint) : sql_bool :=
  Some (is_manager_or_admin d uid).

(** The condition both sub-resource SELECT policies put on the owning
    complaint: [EXISTS (SELECT 1 FROM complaints c WHERE c.id = complaint_id
    AND (c.user_id = auth.uid() OR EXISTS (...)))]. *)
Definition accessible_complaint (d : db) (uid : option uuid)
    (complaint_id : uuid) : bool :=
  existsb
    (λ c, bool_decide (c_id c = complaint_id) &&
          holds (sql_or (sql_eq (c_user_id c) uid)
                        (Some (is_manager_or_admin d uid))))
    (db_complaints d).

(** "Users can view attachments for accessible complaints". *)
Definition attachments_select_policy (d : db) (uid : option uuid)
    (a : attachment) : sql_bool :=
  Some (accessible_complaint d uid (a_complaint_id a)).

(** "Users can upload attachments" on [attachments]. *)
Definition attachments_insert_policy (uid : option uuid) (a : attachment)
    : sql_bool :=
  sql_or (sql_eq uid (a_uploader_id a)) (sql_is_null (a_uploader_id a)).

(** "Users can view messages for accessible complaints". *)
Definition messages_select_policy (d : db) (uid : option uuid)
    (m : message) : sql_bool :=
  Some (accessible_complaint d uid (m_complaint_id m)).

(** "Users can create messages". *)
Definition messages_insert_policy (uid : option uuid) (m : message)
    : sql_bool :=
  sql_or (sql_eq uid (m_sender_id m)) (sql_is_null (m_sender_id m)).

(** [storage.foldername(name)]: the path segments of an object name without
    the last one (the file name). *)
Definition storage_foldername (name : js_string) : list js_string :=
  let parts := split_on 47 name in
  take (length parts - 1) parts.

(** "Users can upload attachments" on [storage.objects]. *)
Definition objects_insert_policy (uid : option uuid) (bucket_id : js_string)
    : sql_bool :=
  sql_and (Some (bool_decide (bucket_id = js "complaint-attachments")))
          (sql_is_not_null uid).

(** The first disjunct of the storage SELECT policy:
    [auth.uid()::text = (storage.foldername(name))[1]]. *)
Definition objects_owner_clause (uid : option uuid) (name : js_string)
    : sql_bool :=
  sql_eq uid (storage_foldername name !! 0%nat).

(** "Users can view attachments for their complaints" on
    [storage.objects]. *)
Definition objects_select_policy (d : db) (uid : option uuid)
    (bucket_id name : js_string) : sql_bool :=
  sql_and (Some (bool_decide (bucket_id = js "complaint-attachments")))
          (sql_or (objects_owner_clause uid name)
                  (Some (is_manager_or_admin d uid))).

(** Row-level security is enabled on every table, so a command for which
    a table has no policy passes no row.  [messages] has policies FOR
    SELECT and FOR INSERT only; [complaints] has none FOR DELETE. *)
Definition permitted {R} (policy : option (db → option uuid → R → sql_bool))
    (d : db) (uid : option uuid) (r : R) : bool :=
  match policy with
  | Some check => holds (check d uid r)
  | None => false
  end.

Definition messages_update_policy
    : option (db → option uuid → message → sql_bool) := None.
Definition messages_delete_policy
    : option (db → option uuid → message → sql_bool) := None.
Definition complaints_delete_policy
    : option (db → option uuid → complaint → sql_bool) := None.

(** ** Requests to the store *)

Inductive store_error :=
  | rls_violation (table : string)
  | unique_violation (table : string)
  | foreign_key_violation (table column : string)
  | not_null_violation (table column : string)
  | invalid_enum_input (type : string)
  | numeric_out_of_range (table column : string)
  | not_a_single_row
  | object_already_exists.

Inductive result (A : Type) :=
  | ok (a : A)
  | err (e : store_error).
Arguments ok {A} a.
Arguments err {A} e.

(** A reference to [profiles(id)]: NULL or the id of a profile. *)
Definition references_profile (d : db) (r : option uuid) : bool :=
  match r with
  | Some u => bool_decide (is_Some (db_profiles d !! u))
  | None => true
  end.

Definition complaint_exists (d : db) (r : uuid) : bool :=
  existsb (λ c, bool_decide (c_id c = r)) (db_complaints d).

(** [from('complaints').select('*')]: the rows the SELECT policy shows. *)
Definition select_complaints (d : db) (uid : option uuid) : list complaint :=
  filter (λ c, holds (complaints_select_policy d uid c) = true)
         (db_complaints d).

(** [from('messages').select(...)]. *)
Definition select_messages (d : db) (uid : option uuid) : list message :=
  filter (λ m, holds (messages_select_policy d uid m) = true)
         (db_messages d).

(** [.single()]: exactly one row, or an error. *)
Definition single {A} (rows : list A) : result A :=
  match rows with
  | [r] => ok r
  | _ => err not_a_single_row
  end.

(** [from('complaints').insert(row).select().single()].

    The row must pass the INSERT check, its key must be new and its
    references must exist.  The insert asks for the stored row back
    (RETURNING), and PostgreSQL then wants the row to pass the SELECT
    policy as well: that is [returning_rls = true].  With [false] the row
    is not checked on the way back, as for an insert that does not read
    it; the properties below that take [returning_rls] as a variable hold
    for both. *)
Definition insert_complaint (returning_rls : bool) (d : db)
    (uid : option uuid) (row : complaint) : result (db * complaint) :=
  if negb (holds (complaints_insert_policy uid row)) then
    err (rls_violation "complaints")
  else if returning_rls && negb (holds (complaints_select_policy d uid row))
  then err (rls_violation "complaints")
  else if complaint_exists d (c_id row) then
    err (unique_violation "complaints")
  else if negb (references_profile d (c_user_id row)) then
    err (foreign_key_violation "complaints" "user_id")
  else if negb (references_profile d (c_manager_id row)) then
    err (foreign_key_violation "complaints" "manager_id")
  else ok (set_complaints d (db_complaints d ++ [row]), row).

(** [from('complaints').update(values).eq('id', id)]: [set] is applied to
    every row with that id that the UPDATE policy lets through, and the
    trigger [update_complaints_updated_at] stamps each such row.  Rows the
    policy hides are skipped without an error.  The id is compared in its
    canonical text, the form in which the pages read it from a loaded row
    and pass it on; the cast of any other text to [uuid] is not part of
    this. *)
Definition update_complaints (d : db) (uid : option uuid) (id : js_string)
    (set : complaint → complaint) (now : N) : result db :=
  let hit c :=
    bool_decide (c_id c = id) && holds (complaints_update_policy d uid c) in
  let stamp c :=
    {| c_id := c_id c; c_user_id := c_user_id c;
       c_manager_id := c_manager_id c; c_title := c_title c;
       c_description := c_description c; c_category := c_category c;
       c_hub := c_hub c; c_room := c_room c; c_priority := c_priority c;
       c_status := c_status c; c_is_anonymous := c_is_anonymous c;
       c_sla_due_at := c_sla_due_at c; c_created_at := c_created_at c;
       c_updated_at := now |} in
  let rows := (λ c, if hit c then stamp (set c) else c) <$> db_complaints d in
  if forallb (λ c, negb (hit c) || references_profile d (c_manager_id (set c)))
             (db_complaints d)
  then ok (set_complaints d rows)
  else err (foreign_key_violation "complaints" "manager_id").

(** [from('messages').insert(row)]. *)
Definition insert_message (d : db) (uid : option uuid) (row : message)
    : result db :=
  if negb (holds (messages_insert_policy uid row)) then
    err (rls_violation "messages")
  else if existsb (λ m, bool_decide (m_id m = m_id row)) (db_messages d) then
    err (unique_violation "messages")
  else if negb (complaint_exists d (m_complaint_id row)) then
    err (foreign_key_violation "messages" "complaint_id")
  else if negb (references_profile d (m_sender_id row)) then
    err (foreign_key_violation "messages" "sender_id")
  else ok (set_messages d (db_messages d ++ [row])).

(** [from('attachments').insert(row)]; [file_size] is an INTEGER column. *)
Definition insert_attachment (d : db) (uid : option uuid) (row : attachment)
    : result db :=
  if negb (holds (attachments_insert_policy uid row)) then
    err (rls_violation "attachments")
  else if negb (default true ((λ n, n <? 2 ^ 31) <$> a_file_size row)) then
    err (numeric_out_of_range "attachments" "file_size")
  else if existsb (λ a, bool_decide (a_id a = a_id row)) (db_attachments d)
  then err (unique_violation "attachments")
  else if negb (complaint_exists d (a_complaint_id row)) then
    err (foreign_key_violation "attachments" "complaint_id")
  else if negb (references_profile d (a_uploader_id row)) then
    err (foreign_key_violation "attachments" "uploader_id")
  else ok (set_attachments d (db_attachments d ++ [row])).

(** An UPDATE on [messages] sent by a client: [set] is applied to the rows
    that match the request's filter and that the policy passes. *)
Definition update_messages (d : db) (uid : option uuid)
    (matches : message → bool) (set : message → message) : db :=
  set_messages d
    ((λ m, if matches m && permitted messages_update_policy d uid m
           then set m else m) <$> db_messages d).

(** A DELETE on [messages] sent by a client. *)
Definition delete_messages (d : db) (uid : option uuid)
    (matches : message → bool) : db :=
  set_messages d
    (filter (λ m, (matches m && permitted messages_delete_policy d uid m)
                  = false) (db_messages d)).

(** A DELETE on [complaints] sent by a client: a deleted complaint takes
    its attachments and its messages with it (ON DELETE CASCADE). *)
Definition delete_complaints (d : db) (uid : option uuid)
    (matches : complaint → bool) : db :=
  let gone c := matches c && permitted complaints_delete_policy d uid c in
  let orphan id :=
    existsb (λ c, gone c && bool_decide (c_id c = id)) (db_complaints d) in
  {| db_profiles := db_profiles d;
     db_complaints := filter (λ c, gone c = false) (db_complaints d);
     db_attachments :=
       filter (λ a, orphan (a_complaint_id a) = false) (db_attachments d);
     db_messages :=
       filter (λ m, orphan (m_complaint_id m) = false) (db_messages d);
     db_objects := db_objects d |}.

(** [storage.from(bucket).upload(name, file)]: refused when the INSERT
    policy of [storage.objects] fails or the name is taken. *)
Definition storage_upload (d : db) (uid : option uuid)
    (bucket_id name : js_string) (f : file) : result db :=
  if negb (holds (objects_insert_policy uid bucket_id)) then
    err (rls_violation "objects")
  else match db_objects d !! (bucket_id, name) with
       | Some _ => err object_already_exists
       | None => ok (set_objects d (<[(bucket_id, name) := f]> (db_objects d)))
       end.

(** ** Notifications shown by the pages *)

Inductive toast :=
  | toast_success (message : string)
  | toast_error (message : string)
  | toast_error_zod (first : zod_issue)
  | toast_error_store (e : store_error).

(** ** SubmitComplaint: [handleSubmit] *)

(** What the platform supplies during one submission: the id and the
    timestamp of the new complaint row and, for the i-th chosen file, the
    reading of [Date.now()], the id and the timestamp of its attachment
    row. *)
Record submit_env := {
  complaint_uuid : uuid;
  complaint_now : N;
  upload_date_now : nat → N;
  attachment_uuid : nat → uuid;
  attachment_now : nat → N;
}.

Definition as_text (v : js_value) : option js_string :=
  match v with
  | js_str s => Some s
  | _ => None
  end.

(** The row the store makes of [complaintData]: the text fields go in as
    submitted, [user_id] is NULL when the complaint is anonymous (and when
    there is no user), the other columns take their defaults. *)
Definition complaintData (user : option uuid) (isAnonymous : bool)
    (data : form_data) (env : submit_env) : result complaint :=
  match as_text (fd_title data), as_text (fd_description data),
        as_text (fd_hub data) with
  | Some title, Some description, Some hub =>
      match as_text (fd_category data) ≫= complaint_category_in,
            as_text (fd_priority data) ≫= complaint_priority_in with
      | Some category, Some priority =>
          ok {| c_id := complaint_uuid env;
                c_user_id := if isAnonymous then None else user;
                c_manager_id := None;
                c_title := title;
                c_description := description;
                c_category := category;
                c_hub := hub;
                c_room := as_text (fd_room data);
                c_priority := priority;
                c_status := new;
                c_is_anonymous := Some isAnonymous;
                c_sla_due_at := None;
                c_created_at := complaint_now env;
                c_updated_at := complaint_now env |}
      | None, _ => err (invalid_enum_input "complaint_category")
      | _, None => err (invalid_enum_input "complaint_priority")
      end
  | None, _, _ => err (not_null_violation "complaints" "title")
  | _, None, _ => err (not_null_violation "complaints" "description")
  | _, _, None => err (not_null_violation "complaints" "hub")
  end.

(** The object name of an attachment:
    [`${complaint.id}/${Date.now()}.${fileExt}`] with
    [fileExt = file.name.split('.').pop()]. *)
Definition fileName (complaint_id : uuid) (date_now : N) (f : file)
    : js_string :=
  let fileExt := default (js "undefined") (last (split_on 46 (file_name f))) in
  complaint_id ++ js "/" ++ decimal date_now ++ js "." ++ fileExt.

(** The upload loop, from the i-th file on: each file is uploaded under its
    object name and, when the upload went through, recorded in
    [attachments]; a failure of either step is not reported and the loop
    goes on. *)
Fixpoint upload_files (d : db) (user : option uuid) (isAnonymous : bool)
    (complaint_id : uuid) (env : submit_env) (i : nat) (files : list file)
    : db :=
  match files with
  | [] => d
  | f :: rest =>
      let name := fileName complaint_id (upload_date_now env i) f in
      let d1 :=
        match storage_upload d user (js "complaint-attachments") name f with
        | err _ => d
        | ok du =>
            match insert_attachment du user
                    {| a_id := attachment_uuid env i;
                       a_complaint_id := complaint_id;
                       a_uploader_id := if isAnonymous then None else user;
                       a_file_path := name;
                       a_file_name := file_name f;
                       a_mime_type := file_type f;
                       a_file_size := Some (file_size f);
                       a_created_at := attachment_now env i |} with
            | ok da => da
            | err _ => du
            end
        end in
      upload_files d1 user isAnonymous complaint_id env (S i) rest
  end.

(** [data]: the fields as read from the form ([formData.get(...)], with
    [|| null] on the room). *)
Definition read_form (form : form_data) : form_data :=
  {| fd_title := fd_title form; fd_description := fd_description form;
     fd_category := fd_category form; fd_hub := fd_hub form;
     fd_room := or_null (fd_room form); fd_priority := fd_priority form |}.

(** [handleSubmit]: validate the form, insert the complaint, upload the
    files.  [user] is the signed-in user's id ([user?.id]), [files] the
    files chosen so far. *)
Definition handleSubmit (returning_rls : bool) (d : db) (user : option uuid)
    (isAnonymous : bool) (files : list file) (form : form_data)
    (env : submit_env) : db * list toast :=
  let data := read_form form in
  match complaintSchema data with
  | issue :: _ => (d, [toast_error_zod issue])
  | [] =>
      match complaintData user isAnonymous data env with
      | err e => (d, [toast_error_store e])
      | ok row =>
          match insert_complaint returning_rls d user row with
          | err e => (d, [toast_error_store e])
          | ok (d1, complaint) =>
              (upload_files d1 user isAnonymous (c_id complaint) env 0 files,
               [toast_success "Complaint submitted successfully!"])
          end
      end
  end.

(** ** Dashboard: [fetchComplaints] *)

(** [ORDER BY created_at DESC]. *)
Definition newer_first (x y : complaint) : Prop :=
  c_created_at y ≤ c_created_at x.

#[global] Instance newer_first_dec x y : Decision (newer_first x y).
Proof. unfold newer_first. apply _. Defined.

(** [from('complaints').select('*').order('created_at',
    { ascending: false })], as the caller [user]. *)
Definition fetchComplaints (d : db) (user : option uuid) : list complaint :=
  merge_sort newer_first (select_complaints d user).

(** ** ManagerDashboard *)

(** [checkManagerAccess]: the caller's profile when its role is manager or
    admin; otherwise an error toast (and the page is left). *)
Definition checkManagerAccess (d : db) (user : option uuid)
    : option profile * list toast :=
  match user ≫= (λ u, db_profiles d !! u) with
  | None => (None, [toast_error "Failed to verify access"])
  | Some p =>
      if bool_decide (p_role p ≠ manager) && bool_decide (p_role p ≠ admin)
      then (None,
            [toast_error "Access denied. Manager or admin role required."])
      else (Some p, [])
  end.

(** The manager's list: the same query with the submitter's name joined in
    ([profiles!complaints_user_id_fkey(name)]). *)
Definition fetchComplaints_manager (d : db) (user : option uuid)
    : list (complaint * option js_string) :=
  (λ c, (c, p_name <$> (c_user_id c ≫= (λ u, db_profiles d !! u)))) <$>
  fetchComplaints d user.

Definition with_status (s : complaint_status) (c : complaint) : complaint :=
  {| c_id := c_id c; c_user_id := c_user_id c;
     c_manager_id := c_manager_id c; c_title := c_title c;
     c_description := c_description c; c_category := c_category c;
     c_hub := c_hub c; c_room := c_room c; c_priority := c_priority c;
     c_status := s; c_is_anonymous := c_is_anonymous c;
     c_sla_due_at := c_sla_due_at c; c_created_at := c_created_at c;
     c_updated_at := c_updated_at c |}.

Definition with_manager_id (m : option uuid) (c : complaint) : complaint :=
  {| c_id := c_id c; c_user_id := c_user_id c;
     c_manager_id := m; c_title := c_title c;
     c_description := c_description c; c_category := c_category c;
     c_hub := c_hub c; c_room := c_room c; c_priority := c_priority c;
     c_status := c_status c; c_is_anonymous := c_is_anonymous c;
     c_sla_due_at := c_sla_due_at c; c_created_at := c_created_at c;
     c_updated_at := c_updated_at c |}.

(** [updateComplaintStatus(complaintId, newStatus)]; [newStatus] is always
    one of the five values of the status selector.  A store error becomes
    an error toast; otherwise the page reports success (and reloads its
    list). *)
Definition updateComplaintStatus (d : db) (user : option uuid)
    (complaintId : js_string) (newStatus : complaint_status) (now : N)
    : db * list toast :=
  match update_complaints d user complaintId (with_status newStatus) now with
  | err _ => (d, [toast_error "Failed to update status"])
  | ok d' => (d', [toast_success "Status updated successfully"])
  end.

(** [assignComplaint(complaintId, managerId)]. *)
Definition assignComplaint (d : db) (user : option uuid)
    (complaintId : js_string) (managerId : option uuid) (now : N)
    : db * list toast :=
  match update_complaints d user complaintId (with_manager_id managerId) now
  with
  | err _ => (d, [toast_error "Failed to assign complaint"])
  | ok d' =>
      (d', [toast_success match managerId with
                          | Some _ => "Complaint assigned successfully"
                          | None => "Assignment removed"
                          end])
  end.

(** ** ComplaintDetail *)

(** The state of the page that the two handlers read and write. *)
Record detail_view := {
  dv_complaint : option complaint;
  dv_messages : list message;
  dv_newMessage : js_string;
}.

(** [ORDER BY created_at ASC]. *)
Definition older_first (x y : message) : Prop :=
  m_created_at x ≤ m_created_at y.

#[global] Instance older_first_dec x y : Decision (older_first x y).
Proof. unfold older_first. apply _. Defined.

(** [fetchComplaintDetails]: load the complaint with the id of the route,
    then its messages, oldest first.  When the complaint cannot be loaded
    the page state stays as it was and an error is shown. *)
Definition fetchComplaintDetails (d : db) (user : option uuid)
    (id : js_string) (v : detail_view) : detail_view * list toast :=
  match single (filter (λ c, c_id c = id) (select_complaints d user)) with
  | err _ => (v, [toast_error "Failed to load complaint details"])
  | ok complaintData =>
      let messagesData :=
        merge_sort older_first
          (filter (λ m, m_complaint_id m = id) (select_messages d user)) in
      ({| dv_complaint := Some complaintData;
          dv_messages := messagesData;
          dv_newMessage := dv_newMessage v |}, [])
  end.

(** What the platform supplies when a message row is stored. *)
Record message_env := {
  message_uuid : uuid;
  message_now : N;
}.

(** The row stored for a message: complaint, sender and body come from the
    page, the other columns take their defaults. *)
Definition sent_message (user : option uuid) (c : complaint)
    (body : js_string) (env : message_env) : message :=
  {| m_id := message_uuid env; m_complaint_id := c_id c;
     m_sender_id := user; m_body := body; m_is_internal := Some false;
     m_created_at := message_now env |}.

(** [sendMessage]: nothing happens when the text is blank or no complaint
    is loaded; otherwise the trimmed text is stored as a message of the
    loaded complaint with the signed-in user as sender, the input is
    cleared and the page reloads. *)
Definition sendMessage (d : db) (user : option uuid) (id : js_string)
    (v : detail_view) (env : message_env) : db * detail_view * list toast :=
  match trim (dv_newMessage v), dv_complaint v with
  | [], _ | _, None => (d, v, [])
  | body, Some complaint =>
      match insert_message d user (sent_message user complaint body env) with
      | err _ => (d, v, [toast_error "Failed to send message"])
      | ok d' =>
          let cleared :=
            {| dv_complaint := dv_complaint v; dv_messages := dv_messages v;
               dv_newMessage := [] |} in
          let '(v', toasts) := fetchComplaintDetails d' user id cleared in
          (d', v', toasts ++ [toast_success "Message sent"])
      end
  end.

(** ** The writes of the application

    Every request of the pages that can change the store, with the caller
    that issues it, and the requests a client could send on its own to
    rewrite or remove messages or to remove complaints. *)
Inductive action :=
  | act_submit (returning_rls : bool) (user : option uuid)
      (isAnonymous : bool) (files : list file) (form : form_data)
      (env : submit_env)
  | act_update_status (user : option uuid) (complaintId : js_string)
      (newStatus : complaint_status) (now : N)
  | act_assign (user : option uuid) (complaintId : js_string)
      (managerId : option uuid) (now : N)
  | act_send_message (user : option uuid) (id : js_string) (v : detail_view)
      (env : message_env)
  | act_update_messages (user : option uuid) (matches : message → bool)
      (set : message → message)
  | act_delete_messages (user : option uuid) (matches : message → bool)
  | act_delete_complaints (user : option uuid) (matches : complaint → bool).

Definition run (d : db) (a : action) : db :=
  match a with
  | act_submit rls user anon files form env =>
      (handleSubmit rls d user anon files form env).1
  | act_update_status user id s now =>
      (updateComplaintStatus d user id s now).1
  | act_assign user id m now => (assignComplaint d user id m now).1
  | act_send_message user id v env => (sendMessage d user id v env).1.1
  | act_update_messages user matches set =>
      update_messages d user matches set
  | act_delete_messages user matches => delete_messages d user matches
  | act_delete_complaints user matches => delete_complaints d user matches
  end.

Definition run_all (d : db) (l : list action) : db := foldl run d l.

(** The files chosen in the form change through two events only. *)
Inductive file_event :=
  | files_selected (selectedFiles : list file)
  | file_removed (index : nat).

Definition files_step (prev : list file) (e : file_event) : list file :=
  match e with
  | files_selected l => (handleFileChange prev l).1
  | file_removed i => removeFile prev i
  end.

(** The fields of the form other than title and description as the schema
    wants them: category and priority among the listed values, a hub of 2
    to 100 characters after trimming, and a room that is filled in and has
    at most 100 characters after trimming. *)
Definition other_fields_valid (form : form_data) : Prop :=
  (∃ c, c ∈ category_values ∧ fd_category form = js_str (js c)) ∧
  (∃ h, fd_hub form = js_str h ∧ (2 ≤ length (trim h) ≤ 100)%nat) ∧
  (∃ r, fd_room form = js_str r ∧ r ≠ [] ∧ (length (trim r) ≤ 100)%nat) ∧
  (∃ p, p ∈ priority_values ∧ fd_priority form = js_str (js p)).

(** ** A small store

    Two users and two complaints, to run the handlers on. *)

Definition ex_student : uuid := js "11111111-1111-4111-8111-111111111111".
Definition ex_manager : uuid := js "22222222-2222-4222-8222-222222222222".

Definition ex_complaint : complaint :=
  {| c_id := js "0c0ffee0-0000-4000-8000-000000000001";
     c_user_id := Some ex_student; c_manager_id := None;
     c_title := js "Projector broken";
     c_description := js "The projector in room 2 does not turn on";
     c_category := equipment; c_hub := js "Kochi Hub";
     c_room := Some (js "Room 2"); c_priority := medium; c_status := new;
     c_is_anonymous := Some false; c_sla_due_at := None;
     c_created_at := 100; c_updated_at := 100 |}.

Definition ex_anonymous_complaint : complaint :=
  {| c_id := js "0c0ffee0-0000-4000-8000-000000000002";
     c_user_id := None; c_manager_id := None;
     c_title := js "Unsafe wiring";
     c_description := js "Exposed wires next to the water cooler";
     c_category := safety; c_hub := js "Kochi Hub";
     c_room := None; c_priority := high; c_status := new;
     c_is_anonymous := Some true; c_sla_due_at := None;
     c_created_at := 200; c_updated_at := 200 |}.

Definition ex_store : db :=
  {| db_profiles :=
       {[ ex_student := {| p_name := js "Asha"; p_role := student;
                           p_hub := Some (js "Kochi Hub") |};
          ex_manager := {| p_name := js "Manu"; p_role := manager;
                           p_hub := Some (js "Kochi Hub") |} ]};
     db_complaints := [ex_complaint; ex_anonymous_complaint];
     db_attachments := [];
     db_messages := [];
     db_objects := ∅ |}.

Definition ex_form : form_data :=
  {| fd_title := js_str (js "Broken wifi");
     fd_description := js_str (js "The wifi in lab 1 is down since monday");
     fd_category := js_str (js "network");
     fd_hub := js_str (js "Kochi Hub");
     fd_room := js_str (js "Lab 1");
     fd_priority := js_str (js "high") |}.

Definition ex_file : file :=
  {| file_name := js "photo.png"; file_size := 1234;
     file_type := js "image/png" |}.

Definition ex_submit_env : submit_env :=
  {| complaint_uuid := js "3f2504e0-4f89-41d3-9a0c-0305e82c3301";
     complaint_now := 300;
     upload_date_now := λ i, 1731668451123 + N.of_nat i;
     attachment_uuid := λ i,
       js "aaaaaaaa-aaaa-4aaa-8aaa-aaaaaaaaaaa" ++ decimal (N.of_nat i);
     attachment_now := λ _, 301 |}.

(** The row an anonymous submission of [ex_form] stores. *)
Definition ex_submitted : complaint :=
  {| c_id := complaint_uuid ex_submit_env;
     c_user_id := None; c_manager_id := None;
     c_title := js "Broken wifi";
     c_description := js "The wifi in lab 1 is down since monday";
     c_category := network; c_hub := js "Kochi Hub";
     c_room := Some (js "Lab 1"); c_priority := high; c_status := new;
     c_is_anonymous := Some true; c_sla_due_at := None;
     c_created_at := 300; c_updated_at := 300 |}.

(** [ex_form] with a title of five characters, four of them blanks, and
    with a title of 201 characters, the last one a blank. *)
Definition ex_form_with_title (title : js_string) : form_data :=
  {| fd_title := js_str title;
     fd_description := fd_description ex_form;
     fd_category := fd_category ex_form;
     fd_hub := fd_hub ex_form;
     fd_room := fd_room ex_form;
     fd_priority := fd_priority ex_form |}.

Definition ex_padded_title : js_string := js "    a".
Definition ex_long_title : js_string := replicate 200 97 ++ [32].

Definition ex_view : detail_view :=
  {| dv_complaint := None; dv_messages := []; dv_newMessage := [] |}.

(** The manager has the anonymous complaint open and has typed a
    follow-up. *)
Definition ex_manager_view : detail_view :=
  {| dv_complaint := Some ex_anonymous_complaint; dv_messages := [];
     dv_newMessage := js "  Any update on this?  " |}.

Definition ex_message_env : message_env :=
  {| message_uuid := js "5e5e5e5e-0000-4000-8000-000000000001";
     message_now := 500 |}.

Definition ex_sent : message :=
  {| m_id := message_uuid ex_message_env;
     m_complaint_id := c_id ex_anonymous_complaint;
     m_sender_id := Some ex_manager;
     m_body := js "Any update on this?";
     m_is_internal := Some false;
     m_created_at := 500 |}.

(** The same page before it has loaded, the text already typed. *)
Definition ex_typed_view : detail_view :=
  {| dv_complaint := None; dv_messages := [];
     dv_newMessage := js "  Any update on this?  " |}.

(** The object name [handleSubmit] gives [ex_file] under [ex_submit_env]. *)
Definition ex_object_name : js_string :=
  js "3f2504e0-4f89-41d3-9a0c-0305e82c3301/1731668451123.png".

(** ** More of the pages and of the schema *)

(** The four counters both dashboards compute from the rows they load. *)
Record stats := {
  st_total : nat;
  st_new : nat;
  st_inProgress : nat;
  st_resolved : nat;
}.

Definition complaint_stats (data : list complaint) : stats :=
  {| st_total := length data;
     st_new := length (filter (λ c, c_status c = new) data);
     st_inProgress :=
       length (filter (λ c, c_status c = in_progress ∨
                            c_status c = acknowledged) data);
     st_resolved :=
       length (filter (λ c, c_status c = resolved ∨ c_status c = closed)
                      data) |}.

(** The text of an enum value, as a row carries it to the client. *)
Definition complaint_status_text (s : complaint_status) : js_string :=
  match s with
  | new => js "new"
  | acknowledged => js "acknowledged"
  | in_progress => js "in_progress"
  | resolved => js "resolved"
  | closed => js "closed"
  end.

Definition complaint_priority_text (p : complaint_priority) : js_string :=
  match p with
  | low => js "low"
  | medium => js "medium"
  | high => js "high"
  end.

(** [s.includes(needle)]. *)
Definition includes (s needle : js_string) : bool :=
  existsb (λ i, bool_decide (take (length needle) (drop i s) = needle))
          (seq 0 (S (length s))).

(** [applyFilters] of the manager dashboard: the search text (when not
    empty) must occur in the lower-cased title or hub; each of the three
    selectors filters unless it is set to 'all'.  [toLowerCase] is the
    string method of that name. *)
Section manager_filters.
Variable toLowerCase : js_string → js_string.

Definition applyFilters (complaints : list (complaint * option js_string))
    (searchQuery statusFilter priorityFilter hubFilter : js_string)
    : list (complaint * option js_string) :=
  let filtered := complaints in
  let filtered :=
    match searchQuery with
    | [] => filtered
    | _ =>
        filter (λ c, includes (toLowerCase (c_title c.1))
                              (toLowerCase searchQuery)
                     || includes (toLowerCase (c_hub c.1))
                                 (toLowerCase searchQuery) = true) filtered
    end in
  let filtered :=
    if bool_decide (statusFilter ≠ js "all")
    then filter (λ c, complaint_status_text (c_status c.1) = statusFilter)
                filtered
    else filtered in
  let filtered :=
    if bool_decide (priorityFilter ≠ js "all")
    then filter (λ c, complaint_priority_text (c_priority c.1)
                      = priorityFilter) filtered
    else filtered in
  if bool_decide (hubFilter ≠ js "all")
  then filter (λ c, c_hub c.1 = hubFilter) filtered
  else filtered.
End manager_filters.

(** [[...new Set(complaints.map(c => c.hub))]]: the hubs in the order of
    their first occurrence. *)
Definition uniqueHubs (complaints : list (complaint * option js_string))
    : list js_string :=
  foldl (λ seen h, if bool_decide (h ∈ seen) then seen else seen ++ [h])
        [] ((λ c, c_hub c.1) <$> complaints).

(** The name shown for the submitter of a row of the manager's list:
    [complaint.is_anonymous ? 'Anonymous'
     : complaint.profiles?.name || 'Unknown']. *)
Definition submitter_label (row : complaint * option js_string) : js_string :=
  match c_is_anonymous row.1 with
  | Some true => js "Anonymous"
  | _ =>
      match row.2 with
      | Some (c :: name) => c :: name
      | _ => js "Unknown"
      end
  end.

(** [fetchManagers]: the profiles whose role is manager or admin. *)
Definition fetchManagers (d : db) : list (uuid * profile) :=
  filter (λ r, p_role r.2 = manager ∨ p_role r.2 = admin)
         (map_to_list (db_profiles d)).

Definition set_profiles (d : db) (ps : gmap uuid profile) : db :=
  {| db_profiles := ps; db_complaints := db_complaints d;
     db_attachments := db_attachments d; db_messages := db_messages d;
     db_objects := db_objects d |}.

Definition user_role_in (s : js_string) : option user_role :=
  if bool_decide (s = js "student") then Some student
  else if bool_decide (s = js "manager") then Some manager
  else if bool_decide (s = js "admin") then Some admin
  else None.

(** The trigger function [handle_new_user], run for a new row of
    [auth.users] with id [new_id]; [meta_name] and [meta_role] are
    [raw_user_meta_data->>'name'] and [->>'role'].  It inserts the profile
    [(id, COALESCE(name, 'User'), COALESCE(role::user_role, 'student'))];
    as a SECURITY DEFINER function it is not subject to the policies. *)
Definition handle_new_user (d : db) (new_id : uuid)
    (meta_name meta_role : option js_string) : result db :=
  match match meta_role with
        | Some r => Some <$> user_role_in r
        | None => Some None
        end with
  | None => err (invalid_enum_input "user_role")
  | Some role =>
      match db_profiles d !! new_id with
      | Some _ => err (unique_violation "profiles")
      | None =>
          ok (set_profiles d
                (<[new_id := {| p_name := default (js "User") meta_name;
                                p_role := default student role;
                                p_hub := None |}]> (db_profiles d)))
      end
  end.

(** "Users can update own profile", FOR UPDATE USING. *)
Definition profiles_update_policy (uid : option uuid) (id : uuid) : sql_bool :=
  sql_eq uid (Some id).

(** An UPDATE on [profiles] sent by a client: [set] (new values for columns
    other than the key) is applied to the rows that match the request's
    filter and that the policy passes. *)
Definition update_profiles (d : db) (uid : option uuid)
    (matches : uuid → profile → bool) (set : profile → profile) : db :=
  set_profiles d
    (map_imap (λ id p,
       Some (if matches id p && holds (profiles_update_policy uid id)
             then set p else p)) (db_profiles d)).

(** What the trigger [update_complaints_updated_at] does to a row. *)
Definition with_updated_at (now : N) (c : complaint) : complaint :=
  {| c_id := c_id c; c_user_id := c_user_id c;
     c_manager_id := c_manager_id c; c_title := c_title c;
     c_description := c_description c; c_category := c_category c;
     c_hub := c_hub c; c_room := c_room c; c_priority := c_priority c;
     c_status := c_status c; c_is_anonymous := c_is_anonymous c;
     c_sla_due_at := c_sla_due_at c; c_created_at := c_created_at c;
     c_updated_at := now |}.

(** The constraints of the schema on the four tables: primary keys are
    distinct, and every reference to a complaint or to a profile points at
    a stored row (or, for a profile, is NULL). *)
Definition well_formed (d : db) : Prop :=
  NoDup (c_id <$> db_complaints d) ∧
  NoDup (m_id <$> db_messages d) ∧
  NoDup (a_id <$> db_attachments d) ∧
  (∀ c, c ∈ db_complaints d →
        references_profile d (c_user_id c) = true ∧
        references_profile d (c_manager_id c) = true) ∧
  (∀ m, m ∈ db_messages d →
        complaint_exists d (m_complaint_id m) = true ∧
        references_profile d (m_sender_id m) = true) ∧
  (∀ a, a ∈ db_attachments d →
        complaint_exists d (a_complaint_id a) = true ∧
        references_profile d (a_uploader_id a) = true).

(** An attachment row as the upload loop records it: it is for the
    complaint at hand, names the given uploader, and its path is the name
    of a stored object holding one of the files, whose name, type and size
    the row repeats. *)
Definition recorded (d' : db) (cid : uuid) (uploader : option uuid)
    (files : list file) (a : attachment) : Prop :=
  a_complaint_id a = cid ∧ a_uploader_id a = uploader ∧
  ∃ f, f ∈ files ∧
       db_objects d' !! (js "complaint-attachments", a_file_path a) = Some f ∧
       a_file_name a = file_name f ∧ a_mime_type a = file_type f ∧
       a_file_size a = Some (file_size f).

(** The row a submission of [ex_form] under the student's name stores. *)
Definition ex_submitted_named : complaint :=
  {| c_id := complaint_uuid ex_submit_env;
     c_user_id := Some ex_student; c_manager_id := None;
     c_title := js "Broken wifi";
     c_description := js "The wifi in lab 1 is down since monday";
     c_category := network; c_hub := js "Kochi Hub";
     c_room := Some (js "Lab 1"); c_priority := high; c_status := new;
     c_is_anonymous := Some false; c_sla_due_at := None;
     c_created_at := 300; c_updated_at := 300 |}.

(** An id that belongs to nobody and nothing in [ex_store]. *)
Definition ex_unknown : uuid := js "99999999-9999-4999-8999-999999999999".

Definition ex_manager_profile : profile :=
  {| p_name := js "Manu"; p_role := manager; p_hub := Some (js "Kochi Hub") |}.

(** A note the manager has left on the student's complaint, marked
    internal, and the store holding it. *)
Definition ex_note : message :=
  {| m_id := js "5e5e5e5e-0000-4000-8000-000000000002";
     m_complaint_id := c_id ex_complaint;
     m_sender_id := Some ex_manager;
     m_body := js "Vendor called, part ordered";
     m_is_internal := Some true;
     m_created_at := 450 |}.

Definition ex_store_with_note : db := set_messages ex_store [ex_note].

(** * Properties *)

(** Decide a closed, decidable statement by running its decision
    procedure. *)
Ltac by_compute :=
  refine (bool_decide_unpack _ _); vm_compute; exact I.

(** ** Strings *)

Lemma trimStart_length s : (length (trimStart s) ≤ length s)%nat.
Proof.
  induction s as [|c s IH]; simpl; [lia|].
  destruct (is_white_space c); simpl; lia.
Qed.

Lemma trim_length s : (length (trim s) ≤ length s)%nat.
Proof.
  unfold trim, trimEnd. rewrite length_reverse.
  etransitivity; [apply trimStart_length|].
  rewrite length_reverse. apply trimStart_length.
Qed.

Lemma split_on_nonempty sep s : split_on sep s ≠ [].
Proof.
  destruct s as [|c s]; simpl; [done|].
  destruct (c =? sep); [done|]. by destruct (split_on sep s).
Qed.

(** Splitting [p ++ sep :: rest] when [sep] does not occur in [p]. *)
Lemma split_on_prefix sep p rest :
  sep ∉ p → split_on sep (p ++ sep :: rest) = p :: split_on sep rest.
Proof.
  induction p as [|c p IH]; intros Hp; simpl.
  - by rewrite N.eqb_refl.
  - apply not_elem_of_cons in Hp as [Hc Hp].
    destruct (N.eqb_spec c sep) as [->|_]; [done|].
    by rewrite IH.
Qed.

Lemma storage_foldername_first p rest :
  47 ∉ p → storage_foldername (p ++ 47 :: rest) !! 0%nat = Some p.
Proof.
  intros Hp. unfold storage_foldername. rewrite split_on_prefix by done.
  pose proof (split_on_nonempty 47 rest) as Hne.
  destruct (split_on 47 rest) as [|w ws]; [done|]. reflexivity.
Qed.

Lemma is_uuid_no_slash s : is_uuid s = true → 47 ∉ s.
Proof.
  unfold is_uuid. intros [_ Hall]%andb_prop (i & Hi)%list_elem_of_lookup_1.
  rewrite forallb_forall in Hall.
  assert (Hin : In (uuid_char i 47) (imap uuid_char s)).
  { apply list_elem_of_In, list_elem_of_lookup. exists i.
    by rewrite list_lookup_imap, Hi. }
  apply Hall in Hin. unfold uuid_char in Hin.
  by destruct (bool_decide _).
Qed.

Lemma fileName_first_folder cid t f :
  47 ∉ cid → storage_foldername (fileName cid t f) !! 0%nat = Some cid.
Proof.
  intros Hcid. unfold fileName. change (js "/") with [47]. simpl.
  by apply storage_foldername_first.
Qed.

(** ** Validation of the submission form *)

Lemma z_enum_nil path values v :
  z_enum path values v = [] ↔ ∃ x, x ∈ values ∧ v = js_str (js x).
Proof.
  unfold z_enum. split.
  - destruct v as [| |s]; try done.
    destruct (existsb _ values) eqn:Hex; [|done]. intros _.
    apply existsb_exists in Hex as (x & Hx & Heq).
    apply bool_decide_eq_true in Heq as <-.
    exists x. by rewrite list_elem_of_In.
  - intros (x & Hx & ->).
    assert (existsb (λ w, bool_decide (js w = js x)) values = true) as ->;
      [|done].
    apply existsb_exists. exists x. split; [by apply list_elem_of_In|].
    by apply bool_decide_eq_true.
Qed.

Lemma z_string_trim_nil path lo m1 hi m2 v :
  z_string_trim path (Some (lo, m1)) (Some (hi, m2)) v = [] ↔
  ∃ s, v = js_str s ∧ (lo ≤ length (trim s) ≤ hi)%nat.
Proof.
  unfold z_string_trim. split.
  - destruct v as [| |s]; try done.
    destruct (Nat.ltb_spec (length (trim s)) lo); [done|].
    destruct (Nat.ltb_spec hi (length (trim s))); [done|].
    intros _. exists s. split; [done|lia].
  - intros (s & -> & Hlo & Hhi).
    destruct (Nat.ltb_spec (length (trim s)) lo); [lia|].
    destruct (Nat.ltb_spec hi (length (trim s))); [lia|]. done.
Qed.

Lemma z_room_nil v :
  z_optional (z_string_trim "room" None (Some (100%nat, "Room name too long")))
    (or_null v) = [] ↔
  ∃ r, v = js_str r ∧ r ≠ [] ∧ (length (trim r) ≤ 100)%nat.
Proof.
  split.
  - destruct v as [| |[|c r]]; try done. simpl. unfold z_string_trim.
    destruct (Nat.ltb_spec 100 (length (trim (c :: r)))); [done|].
    intros _. by exists (c :: r).
  - intros ([|c r] & -> & Hne & Hlen); [done|]. simpl. unfold z_string_trim.
    destruct (Nat.ltb_spec 100 (length (trim (c :: r)))); [lia|]. done.
Qed.

(** The forms the schema lets through: title and description are texts of
    5 to 200 and of 20 to 2000 characters once trimmed, and the other
    fields are valid. *)
Lemma complaintSchema_nil form :
  complaintSchema (read_form form) = [] ↔
  (∃ title description,
     fd_title form = js_str title ∧ fd_description form = js_str description ∧
     (5 ≤ length (trim title) ≤ 200)%nat ∧
     (20 ≤ length (trim description) ≤ 2000)%nat) ∧
  other_fields_valid form.
Proof.
  unfold complaintSchema, read_form, other_fields_valid; simpl.
  rewrite !app_nil, !z_string_trim_nil, !z_enum_nil, z_room_nil.
  split.
  - intros ((t & Ht & Htl) & (ds & Hd & Hdl) & Hc & Hh & Hr & Hp).
    split; [by exists t, ds|done].
  - intros ((t & ds & Ht & Hd & Htl & Hdl) & Hc & Hh & Hr & Hp).
    split_and!; try done; [by exists t|by exists ds].
Qed.

(** ** Choosing files *)

Lemma handleFileChange_length prev sel :
  (length (handleFileChange prev sel).1 ≤ 5)%nat.
Proof. unfold handleFileChange; simpl. rewrite length_take. lia. Qed.

Lemma handleFileChange_full prev sel :
  length prev = 5%nat → (handleFileChange prev sel).1 = prev.
Proof.
  intros H. unfold handleFileChange; simpl.
  rewrite take_app_le by lia. apply take_ge. lia.
Qed.

Lemma removeFile_length prev i : (length (removeFile prev i) ≤ length prev)%nat.
Proof.
  unfold removeFile. revert i.
  induction prev as [|f prev IH]; intros [|i]; simpl; try lia.
  specialize (IH i). lia.
Qed.

Lemma files_state_length events :
  (length (foldl files_step [] events) ≤ 5)%nat.
Proof.
  assert (H : ∀ prev, (length prev ≤ 5)%nat →
                      (length (foldl files_step prev events) ≤ 5)%nat).
  { induction events as [|e events IH]; intros prev Hprev; simpl; [done|].
    apply IH. destruct e as [sel|i]; simpl.
    - apply handleFileChange_length.
    - pose proof (removeFile_length prev i). lia. }
  apply H. simpl. lia.
Qed.

(** ** Policies *)

Lemma sql_eq_sym `{EqDecision A} (a b : option A) : sql_eq a b = sql_eq b a.
Proof.
  destruct a as [x|], b as [y|]; simpl; try done.
  f_equal. apply bool_decide_ext. naive_solver.
Qed.

Lemma sql_eq_null_r `{EqDecision A} (a : option A) : sql_eq a None = None.
Proof. by destruct a. Qed.

Lemma holds_sql_or a b : holds (sql_or a b) = holds a || holds b.
Proof. by destruct a as [[]|], b as [[]|]. Qed.

Lemma holds_sql_eq_some `{EqDecision A} (x : A) (b : option A) :
  holds (sql_eq (Some x) b) = bool_decide (b = Some x).
Proof.
  destruct b as [y|]; simpl; [|done].
  destruct (decide (x = y)) as [->|Hne].
  - by rewrite !bool_decide_eq_true_2.
  - rewrite !bool_decide_eq_false_2; [done| |done]. by intros [= ->].
Qed.

Lemma holds_some b : holds (Some b) = b.
Proof. by destruct b. Qed.

(** Who sees a complaint: its submitter, and managers and admins. *)
Lemma complaints_select_policy_holds d u c :
  holds (complaints_select_policy d (Some u) c)
  = bool_decide (c_user_id c = Some u) || is_manager_or_admin d (Some u).
Proof.
  unfold complaints_select_policy.
  rewrite holds_sql_or, holds_sql_eq_some, holds_some. done.
Qed.

(** A complaint without a submitter is seen by managers and admins only,
    whoever asks. *)
Lemma complaints_select_policy_null d uid c :
  c_user_id c = None →
  holds (complaints_select_policy d uid c) = is_manager_or_admin d uid.
Proof.
  intros Hc. unfold complaints_select_policy.
  rewrite Hc, sql_eq_null_r, holds_sql_or, holds_some. done.
Qed.

Lemma is_manager_or_admin_role d u p :
  db_profiles d !! u = Some p →
  is_manager_or_admin d (Some u) = bool_decide (p_role p ≠ student).
Proof.
  intros Hp. unfold is_manager_or_admin. rewrite Hp.
  apply bool_decide_ext. destruct (p_role p); intuition congruence.
Qed.

Lemma is_manager_or_admin_profiles d d' uid :
  db_profiles d' = db_profiles d →
  is_manager_or_admin d' uid = is_manager_or_admin d uid.
Proof. intros H. unfold is_manager_or_admin. by rewrite H. Qed.

(** ** Listing *)

#[global] Instance newer_first_trans : Transitive newer_first.
Proof. unfold newer_first. intros x y z ??. lia. Qed.
#[global] Instance newer_first_total : Total newer_first.
Proof. unfold newer_first. intros x y. lia. Qed.
#[global] Instance older_first_trans : Transitive older_first.
Proof. unfold older_first. intros x y z ??. lia. Qed.
#[global] Instance older_first_total : Total older_first.
Proof. unfold older_first. intros x y. lia. Qed.

Section filters.
Context {A} (P : A → Prop) `{∀ x, Decision (P x)}.

Lemma filter_all (l : list A) : (∀ x, x ∈ l → P x) → filter P l = l.
Proof.
  induction l as [|x l IH]; intros Hall; [done|].
  rewrite filter_cons_True by (apply Hall; left).
  f_equal. apply IH. intros y Hy. apply Hall. by right.
Qed.

Lemma filter_none (l : list A) : (∀ x, x ∈ l → ¬ P x) → filter P l = [].
Proof.
  induction l as [|x l IH]; intros Hall; [done|].
  rewrite filter_cons_False by (apply Hall; left).
  apply IH. intros y Hy. apply Hall. by right.
Qed.
End filters.

Lemma fetchComplaints_perm d uid :
  fetchComplaints d uid ≡ₚ select_complaints d uid.
Proof. apply merge_sort_Permutation. Qed.

Lemma fetchComplaints_sorted d uid :
  StronglySorted newer_first (fetchComplaints d uid).
Proof. apply StronglySorted_merge_sort; apply _. Qed.

Lemma fetchComplaints_elem d uid c :
  c ∈ fetchComplaints d uid ↔
  c ∈ db_complaints d ∧ holds (complaints_select_policy d uid c) = true.
Proof.
  rewrite fetchComplaints_perm. unfold select_complaints.
  rewrite list_elem_of_filter. tauto.
Qed.

Lemma select_complaints_student d u p :
  db_profiles d !! u = Some p → p_role p = student →
  select_complaints d (Some u)
  = filter (λ c, c_user_id c = Some u) (db_complaints d).
Proof.
  intros Hp Hrole. unfold select_complaints. apply list_filter_iff.
  intros c. rewrite complaints_select_policy_holds.
  rewrite (is_manager_or_admin_role _ _ _ Hp), Hrole.
  rewrite (bool_decide_eq_false_2 (student ≠ student)) by (intros Hn; by apply Hn).
  rewrite orb_false_r. apply bool_decide_eq_true.
Qed.

Lemma select_complaints_manager d u p :
  db_profiles d !! u = Some p → p_role p ≠ student →
  select_complaints d (Some u) = db_complaints d.
Proof.
  intros Hp Hrole. unfold select_complaints. apply filter_all.
  intros c _. rewrite complaints_select_policy_holds.
  rewrite (is_manager_or_admin_role _ _ _ Hp).
  rewrite (bool_decide_eq_true_2 _ Hrole), orb_true_r. done.
Qed.

Lemma select_complaints_ext d d' uid :
  db_profiles d' = db_profiles d → db_complaints d' = db_complaints d →
  select_complaints d' uid = select_complaints d uid.
Proof.
  intros Hp Hc. unfold select_complaints, complaints_select_policy.
  by rewrite Hc, (is_manager_or_admin_profiles _ _ _ Hp).
Qed.

Lemma single_ok {A} (rows : list A) r : single rows = ok r → rows = [r].
Proof. destruct rows as [|x [|y rows]]; simpl; try done. by intros [= ->]. Qed.

(** Whoever sees a complaint sees its sub-resources. *)
Lemma accessible_complaint_visible d uid c :
  c ∈ db_complaints d →
  holds (complaints_select_policy d uid c) = true →
  accessible_complaint d uid (c_id c) = true.
Proof.
  intros Hin Hvis. unfold accessible_complaint. apply existsb_exists.
  exists c. split; [by apply list_elem_of_In|].
  rewrite bool_decide_eq_true_2 by done. simpl.
  by rewrite sql_eq_sym.
Qed.

(** The thread a caller gets for a complaint they see: all its messages,
    oldest first. *)
Lemma fetchComplaintDetails_thread d uid id v c :
  filter (λ x, c_id x = id) (select_complaints d uid) = [c] →
  let thread :=
    merge_sort older_first
      (filter (λ m, m_complaint_id m = id) (select_messages d uid)) in
  fetchComplaintDetails d uid id v
  = ({| dv_complaint := Some c; dv_messages := thread;
        dv_newMessage := dv_newMessage v |}, []) ∧
  thread ≡ₚ filter (λ m, m_complaint_id m = id) (db_messages d) ∧
  StronglySorted older_first thread.
Proof.
  intros Hone thread. split_and!.
  - unfold fetchComplaintDetails. by rewrite Hone.
  - unfold thread. rewrite merge_sort_Permutation.
    assert (Hc : c ∈ filter (λ x, c_id x = id) (select_complaints d uid))
      by (rewrite Hone; left).
    apply list_elem_of_filter in Hc as [Hid Hc].
    apply list_elem_of_filter in Hc as [Hvis Hc].
    unfold select_messages. rewrite list_filter_filter.
    erewrite list_filter_iff; [done|].
    intros m. split; [tauto|]. intros Hm. split; [done|].
    unfold messages_select_policy. rewrite holds_some, Hm, <-Hid.
    by apply accessible_complaint_visible.
  - apply StronglySorted_merge_sort; apply _.
Qed.

(** ** What a submission changes *)

Lemma set_complaints_id d : set_complaints d (db_complaints d) = d.
Proof. by destruct d. Qed.

Lemma set_messages_id d : set_messages d (db_messages d) = d.
Proof. by destruct d. Qed.

Lemma complaint_exists_false d id c :
  complaint_exists d id = false → c ∈ db_complaints d → c_id c ≠ id.
Proof.
  unfold complaint_exists. intros Hex Hc Hid.
  assert (existsb (λ x, bool_decide (c_id x = id)) (db_complaints d) = true)
    as Hall; [|congruence].
  apply existsb_exists. exists c. split; [by apply list_elem_of_In|].
  by apply bool_decide_eq_true.
Qed.

Lemma storage_upload_tables d uid b name f d' :
  storage_upload d uid b name f = ok d' →
  db_profiles d' = db_profiles d ∧ db_complaints d' = db_complaints d ∧
  db_messages d' = db_messages d ∧ db_attachments d' = db_attachments d ∧
  db_objects d' = <[(b, name) := f]> (db_objects d) ∧
  b = js "complaint-attachments" ∧ db_objects d !! (b, name) = None.
Proof.
  unfold storage_upload, objects_insert_policy.
  destruct (decide (b = js "complaint-attachments")) as [->|Hb].
  - destruct (holds _); simpl; [|done].
    destruct (db_objects d !! _) eqn:Ho; [done|]. by intros [= <-].
  - rewrite (bool_decide_eq_false_2 _ Hb). simpl. done.
Qed.

Lemma insert_attachment_tables d uid row d' :
  insert_attachment d uid row = ok d' →
  db_profiles d' = db_profiles d ∧ db_complaints d' = db_complaints d ∧
  db_messages d' = db_messages d ∧ db_objects d' = db_objects d ∧
  db_attachments d' = db_attachments d ++ [row].
Proof.
  unfold insert_attachment.
  repeat (match goal with |- context [if ?c then _ else _] => destruct c end;
          simpl; [done|]).
  by intros [= <-].
Qed.

(** The upload loop leaves profiles, complaints and messages alone, and
    every object it adds is named after the complaint. *)
Lemma upload_files_spec files : ∀ d user anon cid env i,
  let d' := upload_files d user anon cid env i files in
  db_profiles d' = db_profiles d ∧ db_complaints d' = db_complaints d ∧
  db_messages d' = db_messages d ∧
  ∀ b name, db_objects d !! (b, name) = None →
            is_Some (db_objects d' !! (b, name)) →
            b = js "complaint-attachments" ∧
            ∃ t f, name = fileName cid t f.
Proof.
  induction files as [|f files IH]; intros d user anon cid env i; simpl.
  { split_and!; try done. intros b name Hnone [x Hx]. congruence. }
  set (name := fileName cid (upload_date_now env i) f).
  destruct (storage_upload d user _ name f) as [du|e] eqn:Hup; simpl.
  2: { apply IH. }
  apply storage_upload_tables in Hup as (Hp & Hc & Hm & Ha & Ho & _ & Hnone).
  set (row := Build_attachment _ _ _ _ _ _ _ _).
  assert (∃ d1, (match insert_attachment du user row with
                 | ok da => da | err _ => du end) = d1 ∧
                db_profiles d1 = db_profiles d ∧
                db_complaints d1 = db_complaints d ∧
                db_messages d1 = db_messages d ∧
                db_objects d1 = <[(js "complaint-attachments", name) := f]>
                                  (db_objects d)) as (d1 & -> & Hp1 & Hc1 & Hm1 & Ho1).
  { destruct (insert_attachment du user row) as [da|e] eqn:Hins.
    - apply insert_attachment_tables in Hins as (? & ? & ? & ? & _).
      exists da. split_and!; congruence.
    - exists du. split_and!; congruence. }
  destruct (IH d1 user anon cid env (S i)) as (Hp2 & Hc2 & Hm2 & Hobj).
  split_and!; try congruence.
  intros b nm Hfree Hsome.
  destruct (decide ((js "complaint-attachments", name) = (b, nm))) as [[= <- <-]|Hne].
  - split; [done|]. by exists (upload_date_now env i), f.
  - apply Hobj; [|done]. rewrite Ho1. by rewrite lookup_insert_ne.
Qed.

(** The upload loop records at most one attachment per file, each for the
    complaint at hand. *)
Lemma upload_files_attachments files : ∀ d user anon cid env i,
  ∃ new,
    db_attachments (upload_files d user anon cid env i files)
    = db_attachments d ++ new ∧
    (length new ≤ length files)%nat ∧
    Forall (λ a, a_complaint_id a = cid) new.
Proof.
  induction files as [|f files IH]; intros d user anon cid env i; simpl.
  { exists []. by rewrite app_nil_r. }
  set (name := fileName cid (upload_date_now env i) f).
  destruct (storage_upload d user _ name f) as [du|e] eqn:Hup; simpl.
  2: { destruct (IH d user anon cid env (S i)) as (new & -> & Hlen & Hall).
       exists new. split_and!; [done|lia|done]. }
  apply storage_upload_tables in Hup as (_ & _ & _ & Ha & _).
  set (row := Build_attachment _ _ _ _ _ _ _ _).
  destruct (insert_attachment du user row) as [da|e] eqn:Hins.
  - apply insert_attachment_tables in Hins as (_ & _ & _ & _ & Hda).
    destruct (IH da user anon cid env (S i)) as (new & -> & Hlen & Hall).
    exists (row :: new). rewrite Hda, Ha, <-app_assoc. simpl.
    split_and!; [done|lia|]. by constructor.
  - destruct (IH du user anon cid env (S i)) as (new & -> & Hlen & Hall).
    exists new. rewrite Ha. split_and!; [done|lia|done].
Qed.

Lemma complaintData_fields user anon data env row :
  complaintData user anon data env = ok row →
  c_id row = complaint_uuid env ∧
  c_user_id row = (if anon then None else user) ∧
  c_is_anonymous row = Some anon.
Proof.
  unfold complaintData.
  destruct (as_text (fd_title data)), (as_text (fd_description data)),
    (as_text (fd_hub data)); try done.
  destruct (as_text (fd_category data) ≫= complaint_category_in),
    (as_text (fd_priority data) ≫= complaint_priority_in); try done.
  by intros [= <-].
Qed.

Lemma insert_complaint_ok rls d uid row d1 c :
  insert_complaint rls d uid row = ok (d1, c) →
  c = row ∧ d1 = set_complaints d (db_complaints d ++ [row]) ∧
  complaint_exists d (c_id row) = false.
Proof.
  unfold insert_complaint.
  destruct (negb (holds (complaints_insert_policy uid row))); [done|].
  destruct (rls && _); [done|].
  destruct (complaint_exists d (c_id row)); [done|].
  destruct (negb (references_profile d (c_user_id row))); [done|].
  destruct (negb (references_profile d (c_manager_id row))); [done|].
  by intros [= <- <-].
Qed.

Section submission.
Context (rls : bool) (d : db) (user : option uuid) (anon : bool)
  (files : list file) (form : form_data) (env : submit_env).

Lemma handleSubmit_invalid :
  complaintSchema (read_form form) ≠ [] →
  ∃ issue, handleSubmit rls d user anon files form env
           = (d, [toast_error_zod issue]).
Proof.
  intros Hne. unfold handleSubmit.
  destruct (complaintSchema (read_form form)) as [|issue rest]; [done|].
  by exists issue.
Qed.

Lemma handleSubmit_valid issue :
  complaintSchema (read_form form) = [] →
  toast_error_zod issue ∉ (handleSubmit rls d user anon files form env).2.
Proof.
  intros Hnil. unfold handleSubmit. rewrite Hnil.
  destruct (complaintData _ _ _ _) as [row|e]; simpl;
    [|by intros ?%list_elem_of_singleton].
  destruct (insert_complaint _ _ _ _) as [[d1 c]|e]; simpl;
    by intros ?%list_elem_of_singleton.
Qed.

(** A submission adds at most one complaint row, the one built from the
    form, under an id no stored complaint has; it touches neither the
    profiles nor the messages. *)
Lemma handleSubmit_tables :
  let d' := (handleSubmit rls d user anon files form env).1 in
  db_profiles d' = db_profiles d ∧ db_messages d' = db_messages d ∧
  (db_complaints d' = db_complaints d ∨
   ∃ row, complaintData user anon (read_form form) env = ok row ∧
          complaint_exists d (c_id row) = false ∧
          db_complaints d' = db_complaints d ++ [row]).
Proof.
  unfold handleSubmit.
  destruct (complaintSchema (read_form form)); simpl; [|by auto].
  destruct (complaintData _ _ _ _) as [row|e] eqn:Hrow; simpl; [|by auto].
  destruct (insert_complaint _ _ _ _) as [[d1 c]|e] eqn:Hins; simpl; [|by auto].
  apply insert_complaint_ok in Hins as (-> & -> & Hfresh).
  destruct (upload_files_spec files (set_complaints d (db_complaints d ++ [row]))
              user anon (c_id row) env 0%nat) as (Hp & Hc & Hm & _).
  rewrite Hp, Hm, Hc. simpl. split_and!; try done.
  right. by exists row.
Qed.

(** A submission records at most one attachment per chosen file, all of
    them for the new complaint. *)
Lemma handleSubmit_attachments :
  ∃ new,
    db_attachments (handleSubmit rls d user anon files form env).1
    = db_attachments d ++ new ∧
    (length new ≤ length files)%nat ∧
    Forall (λ a, a_complaint_id a = complaint_uuid env) new.
Proof.
  unfold handleSubmit.
  destruct (complaintSchema (read_form form)); simpl;
    [|exists []; rewrite app_nil_r; split_and!; [done|simpl; lia|done]].
  destruct (complaintData _ _ _ _) as [row|e] eqn:Hrow; simpl;
    [|exists []; rewrite app_nil_r; split_and!; [done|simpl; lia|done]].
  destruct (insert_complaint _ _ _ _) as [[d1 c]|e] eqn:Hins; simpl;
    [|exists []; rewrite app_nil_r; split_and!; [done|simpl; lia|done]].
  apply insert_complaint_ok in Hins as (-> & -> & _).
  apply complaintData_fields in Hrow as (<- & _ & _).
  destruct (upload_files_attachments files
              (set_complaints d (db_complaints d ++ [row])) user anon
              (c_id row) env 0%nat) as (new & Heq & Hlen & Hall).
  exists new. by rewrite Heq.
Qed.

(** Every object a submission adds lies in the attachments bucket under a
    name built from the id of the complaint it has just stored. *)
Lemma handleSubmit_objects b name :
  let d' := (handleSubmit rls d user anon files form env).1 in
  db_objects d !! (b, name) = None →
  is_Some (db_objects d' !! (b, name)) →
  b = js "complaint-attachments" ∧
  (∃ t f, name = fileName (complaint_uuid env) t f) ∧
  ∃ c, c ∈ db_complaints d' ∧ c_id c = complaint_uuid env.
Proof.
  unfold handleSubmit.
  destruct (complaintSchema (read_form form)); simpl;
    [|by intros -> [? [=]]].
  destruct (complaintData _ _ _ _) as [row|e] eqn:Hrow; simpl;
    [|by intros -> [? [=]]].
  destruct (insert_complaint _ _ _ _) as [[d1 c]|e] eqn:Hins; simpl;
    [|by intros -> [? [=]]].
  apply insert_complaint_ok in Hins as (-> & -> & _).
  apply complaintData_fields in Hrow as (Hid & _ & _).
  destruct (upload_files_spec files (set_complaints d (db_complaints d ++ [row]))
              user anon (c_id row) env 0%nat) as (_ & Hc & _ & Hobj).
  intros Hnone Hsome. destruct (Hobj b name Hnone Hsome) as (Hb & t & f & Hn).
  split_and!; [done|by exists t, f; rewrite <-Hid|].
  exists row. split; [|done]. rewrite Hc. simpl.
  apply elem_of_app. right. left.
Qed.
End submission.

(** An anonymous submission stores no submitter, on any path through
    [handleSubmit]. *)
Lemma handleSubmit_anonymous_row rls d user files form env c :
  c ∈ db_complaints (handleSubmit rls d user true files form env).1 →
  c ∉ db_complaints d →
  c_id c = complaint_uuid env ∧ c_user_id c = None ∧
  c_is_anonymous c = Some true ∧
  complaint_exists d (c_id c) = false ∧
  db_complaints (handleSubmit rls d user true files form env).1
  = db_complaints d ++ [c].
Proof.
  intros Hin Hnew.
  destruct (handleSubmit_tables rls d user true files form env)
    as (_ & _ & [Heq|(row & Hrow & Hfresh & Heq)]).
  - by rewrite Heq in Hin.
  - rewrite Heq in Hin. apply elem_of_app in Hin as [Hin|Hin]; [done|].
    apply list_elem_of_singleton in Hin as ->.
    apply complaintData_fields in Hrow as (Hid & Hu & Ha). done.
Qed.

(** ** Triage *)

(** An update by a caller who is neither manager nor admin passes no row:
    the store is left as it was and no error is raised. *)
Lemma update_complaints_not_manager d uid id set now :
  is_manager_or_admin d uid = false →
  update_complaints d uid id set now = ok d.
Proof.
  intros Hm. unfold update_complaints, complaints_update_policy.
  rewrite Hm. simpl.
  assert (Hhit : ∀ c : complaint, bool_decide (c_id c = id) && false = false)
    by (intros c; apply andb_false_r).
  rewrite (proj2 (forallb_forall _ _)).
  2: { intros c _. by rewrite Hhit. }
  f_equal. transitivity (set_complaints d (db_complaints d));
    [f_equal|apply set_complaints_id].
  transitivity ((λ c, c) <$> db_complaints d); [|apply list_fmap_id].
  apply list_fmap_ext. intros i c _. by rewrite Hhit.
Qed.

Lemma update_complaints_tables d uid id set now d' :
  update_complaints d uid id set now = ok d' →
  (∀ c, c_id (set c) = c_id c) →
  db_profiles d' = db_profiles d ∧ db_messages d' = db_messages d ∧
  c_id <$> db_complaints d' = c_id <$> db_complaints d.
Proof.
  unfold update_complaints. destruct (forallb _ _); [|done].
  intros [= <-] Hset. simpl. split_and!; try done.
  rewrite <-list_fmap_compose. apply list_fmap_ext. intros i c _. simpl.
  destruct (_ && _); [|done]. simpl. apply Hset.
Qed.

(** ** Message threads *)

Lemma insert_message_ok d uid row d' :
  insert_message d uid row = ok d' →
  d' = set_messages d (db_messages d ++ [row]).
Proof.
  unfold insert_message.
  repeat (match goal with |- context [if ?c then _ else _] => destruct c end;
          simpl; [done|]).
  by intros [= <-].
Qed.

Lemma insert_message_accepted d u c body env :
  c ∈ db_complaints d →
  is_Some (db_profiles d !! u) →
  (∀ m, m ∈ db_messages d → m_id m ≠ message_uuid env) →
  insert_message d (Some u) (sent_message (Some u) c body env)
  = ok (set_messages d
          (db_messages d ++ [sent_message (Some u) c body env])).
Proof.
  intros Hc Hp Hfresh. unfold insert_message.
  assert (holds (messages_insert_policy (Some u)
                   (sent_message (Some u) c body env)) = true) as ->.
  { unfold messages_insert_policy. simpl.
    by rewrite bool_decide_eq_true_2. }
  assert (existsb (λ m, bool_decide (m_id m = message_uuid env))
                  (db_messages d) = false) as Hid.
  { apply not_true_is_false. intros (m & Hm & Heq)%existsb_exists.
    apply bool_decide_eq_true in Heq.
    by apply (Hfresh m); [apply list_elem_of_In|]. }
  simpl. rewrite Hid.
  assert (complaint_exists d (c_id c) = true) as ->.
  { apply existsb_exists. exists c. split; [by apply list_elem_of_In|].
    by apply bool_decide_eq_true. }
  simpl. by rewrite (bool_decide_eq_true_2 _ Hp).
Qed.

(** [sendMessage] leaves the store as it is or appends one message: the
    trimmed text, for the loaded complaint, from the signed-in user. *)
Lemma sendMessage_store d user id v env :
  let d' := (sendMessage d user id v env).1.1 in
  d' = d ∨
  ∃ c, dv_complaint v = Some c ∧ trim (dv_newMessage v) ≠ [] ∧
       insert_message d user
         (sent_message user c (trim (dv_newMessage v)) env) = ok d' ∧
       d' = set_messages d
              (db_messages d ++
               [sent_message user c (trim (dv_newMessage v)) env]).
Proof.
  unfold sendMessage.
  destruct (trim (dv_newMessage v)) as [|b body] eqn:Hbody; [by left|].
  destruct (dv_complaint v) as [c|] eqn:Hc; [|by left].
  destruct (insert_message _ _ _) as [d1|e] eqn:Hins; [|by left].
  destruct (fetchComplaintDetails d1 user id _) as [v' toasts]. simpl.
  right. exists c. split_and!; try done.
  by apply insert_message_ok in Hins.
Qed.

(** Without a policy for the command, the request changes nothing. *)
Lemma update_messages_denied d uid matches set :
  update_messages d uid matches set = d.
Proof.
  unfold update_messages. simpl.
  transitivity (set_messages d (db_messages d)); [|apply set_messages_id].
  f_equal. transitivity ((λ m, m) <$> db_messages d); [|apply list_fmap_id].
  apply list_fmap_ext. intros i m _. by rewrite andb_false_r.
Qed.

Lemma delete_messages_denied d uid matches :
  delete_messages d uid matches = d.
Proof.
  unfold delete_messages. simpl.
  transitivity (set_messages d (db_messages d)); [|apply set_messages_id].
  f_equal. apply filter_all. intros m _. apply andb_false_r.
Qed.

Lemma delete_complaints_denied d uid matches :
  delete_complaints d uid matches = d.
Proof.
  unfold delete_complaints. simpl.
  assert (Horphan : ∀ id,
    existsb (λ c, matches c && false && bool_decide (c_id c = id))
            (db_complaints d) = false).
  { intros id. apply not_true_is_false.
    intros (c & _ & Hc)%existsb_exists. by rewrite andb_false_r in Hc. }
  rewrite !filter_all; [by destruct d|..].
  - intros m _. apply Horphan.
  - intros a _. apply Horphan.
  - intros c _. apply andb_false_r.
Qed.

Lemma run_tables d a :
  (∃ new, db_messages (run d a) = db_messages d ++ new) ∧
  (∃ new, c_id <$> db_complaints (run d a)
          = (c_id <$> db_complaints d) ++ new).
Proof.
  destruct a as [rls user anon files form env|user id s now|user id m now
                |user id v env|user matches set|user matches|user matches];
    cbn [run].
  - destruct (handleSubmit_tables rls d user anon files form env)
      as (_ & Hm & [Hc|(row & _ & _ & Hc)]); rewrite Hm, Hc.
    + split; exists []; by rewrite app_nil_r.
    + split; [exists []; by rewrite app_nil_r|].
      exists [c_id row]. by rewrite fmap_app.
  - unfold updateComplaintStatus.
    destruct (update_complaints _ _ _ _ _) as [d'|e] eqn:Hup; simpl.
    + apply update_complaints_tables in Hup as (_ & -> & ->); [|done].
      split; exists []; by rewrite app_nil_r.
    + split; exists []; by rewrite app_nil_r.
  - unfold assignComplaint.
    destruct (update_complaints _ _ _ _ _) as [d'|e] eqn:Hup; simpl.
    + apply update_complaints_tables in Hup as (_ & -> & ->); [|done].
      split; exists []; by rewrite app_nil_r.
    + split; exists []; by rewrite app_nil_r.
  - destruct (sendMessage_store d user id v env) as [->|(c & _ & _ & _ & ->)].
    + split; exists []; by rewrite app_nil_r.
    + simpl. split; [by eexists|]. exists []. by rewrite app_nil_r.
  - rewrite update_messages_denied. split; exists []; by rewrite app_nil_r.
  - rewrite delete_messages_denied. split; exists []; by rewrite app_nil_r.
  - rewrite delete_complaints_denied. split; exists []; by rewrite app_nil_r.
Qed.

(** A form that passes validation casts to a row. *)
Lemma complaint_category_in_values c :
  c ∈ category_values → is_Some (complaint_category_in (js c)).
Proof.
  unfold category_values. rewrite !elem_of_cons, elem_of_nil.
  intros [->|[->|[->|[->|[->|[->|[->|[]]]]]]]]; vm_compute; eauto.
Qed.

Lemma complaint_priority_in_values p :
  p ∈ priority_values → is_Some (complaint_priority_in (js p)).
Proof.
  unfold priority_values. rewrite !elem_of_cons, elem_of_nil.
  intros [->|[->|[->|[]]]]; vm_compute; eauto.
Qed.

Lemma complaintData_valid user anon form env :
  complaintSchema (read_form form) = [] →
  ∃ row, complaintData user anon (read_form form) env = ok row.
Proof.
  intros ((t & ds & Ht & Hd & _ & _) & (c & Hc & Hcat) & (h & Hhub & _) &
          _ & (p & Hp & Hprio))%complaintSchema_nil.
  destruct (complaint_category_in_values c Hc) as [cat Hcat'].
  destruct (complaint_priority_in_values p Hp) as [prio Hprio'].
  unfold complaintData, read_form. simpl.
  rewrite Ht, Hd, Hhub, Hcat, Hprio. simpl.
  rewrite Hcat', Hprio'. by eexists.
Qed.

(** ** The claims *)

(** C1.  Whoever submits, a complaint created by [handleSubmit] with the
    anonymous switch on is stored without a submitter: its [user_id] is
    NULL (and its [is_anonymous] is true). *)
Theorem anonymous_submission_has_no_submitter
    rls d user files form env c :
  c ∈ db_complaints (handleSubmit rls d user true files form env).1 →
  c ∉ db_complaints d →
  c_user_id c = None ∧ c_is_anonymous c = Some true.
Proof.
  intros Hin Hnew.
  by destruct (handleSubmit_anonymous_row _ _ _ _ _ _ _ Hin Hnew)
    as (_ & ? & ? & _).
Qed.

Lemma anonymous_submission_has_no_submitter_witness :
  (ex_submitted ∈ db_complaints
     (handleSubmit false ex_store (Some ex_student) true [ex_file] ex_form
                   ex_submit_env).1) ∧
  (ex_submitted ∉ db_complaints ex_store) ∧
  c_user_id ex_submitted = None ∧ c_is_anonymous ex_submitted = Some true.
Proof.
  assert (Hin : ex_submitted ∈ db_complaints
    (handleSubmit false ex_store (Some ex_student) true [ex_file] ex_form
                  ex_submit_env).1) by by_compute.
  assert (Hnew : ex_submitted ∉ db_complaints ex_store) by by_compute.
  split; [exact Hin|]. split; [exact Hnew|].
  exact (anonymous_submission_has_no_submitter _ _ _ _ _ _ _ Hin Hnew).
Defined.

(** C2.  A student's list holds exactly the complaints whose [user_id] is
    the student's id; a manager's or an admin's list holds every complaint
    of every hub.  Either list is ordered newest first by [created_at], and
    the manager dashboard shows the same rows in the same order. *)
Theorem fetchComplaints_by_role d u p :
  db_profiles d !! u = Some p →
  fetchComplaints d (Some u) ≡ₚ
    match p_role p with
    | student => filter (λ c, c_user_id c = Some u) (db_complaints d)
    | manager | admin => db_complaints d
    end ∧
  StronglySorted newer_first (fetchComplaints d (Some u)) ∧
  (fetchComplaints_manager d (Some u)).*1 = fetchComplaints d (Some u).
Proof.
  intros Hp. split_and!.
  - rewrite fetchComplaints_perm.
    destruct (p_role p) eqn:Hrole.
    + by rewrite (select_complaints_student _ _ _ Hp Hrole).
    + rewrite (select_complaints_manager _ _ p); [done..|congruence].
    + rewrite (select_complaints_manager _ _ p); [done..|congruence].
  - apply fetchComplaints_sorted.
  - unfold fetchComplaints_manager. rewrite <-list_fmap_compose.
    apply list_fmap_id.
Qed.

Lemma fetchComplaints_by_role_witness :
  db_profiles ex_store !! ex_student
  = Some {| p_name := js "Asha"; p_role := student;
            p_hub := Some (js "Kochi Hub") |} ∧
  fetchComplaints ex_store (Some ex_student) ≡ₚ
    filter (λ c, c_user_id c = Some ex_student) (db_complaints ex_store) ∧
  StronglySorted newer_first (fetchComplaints ex_store (Some ex_student)) ∧
  (fetchComplaints_manager ex_store (Some ex_student)).*1
  = fetchComplaints ex_store (Some ex_student).
Proof.
  assert (Hp : db_profiles ex_store !! ex_student
               = Some {| p_name := js "Asha"; p_role := student;
                         p_hub := Some (js "Kochi Hub") |})
    by (vm_compute; reflexivity).
  split; [exact Hp|].
  exact (fetchComplaints_by_role ex_store ex_student _ Hp).
Defined.

(** C3, as first stated, fails: a student's status update and assignment
    end without any error; both handlers report success while the store is
    as before. *)
Lemma student_update_is_not_reported_as_error :
  db_profiles ex_store !! ex_student
  = Some {| p_name := js "Asha"; p_role := student;
            p_hub := Some (js "Kochi Hub") |} ∧
  updateComplaintStatus ex_store (Some ex_student) (c_id ex_complaint)
                        resolved 400
  = (ex_store, [toast_success "Status updated successfully"]) ∧
  assignComplaint ex_store (Some ex_student) (c_id ex_complaint)
                  (Some ex_manager) 400
  = (ex_store, [toast_success "Complaint assigned successfully"]).
Proof. split_and!; vm_compute; reflexivity. Qed.

(** C3 (as amended).  For a caller whose role is student, a status update
    and an assignment change nothing: the UPDATE policy passes none of the
    rows, the request ends without an error and the store is as before.
    What a student is told is the manager page's own refusal. *)
Theorem student_update_changes_nothing
    d u p complaintId newStatus managerId now :
  db_profiles d !! u = Some p →
  p_role p = student →
  update_complaints d (Some u) complaintId (with_status newStatus) now
  = ok d ∧
  update_complaints d (Some u) complaintId (with_manager_id managerId) now
  = ok d ∧
  (updateComplaintStatus d (Some u) complaintId newStatus now).1 = d ∧
  (assignComplaint d (Some u) complaintId managerId now).1 = d ∧
  checkManagerAccess d (Some u)
  = (None, [toast_error "Access denied. Manager or admin role required."]).
Proof.
  intros Hp Hrole.
  assert (Hm : is_manager_or_admin d (Some u) = false).
  { rewrite (is_manager_or_admin_role _ _ _ Hp), Hrole.
    apply bool_decide_eq_false_2. intros Hn. by apply Hn. }
  unfold updateComplaintStatus, assignComplaint.
  rewrite !(update_complaints_not_manager _ _ _ _ _ Hm). split_and!; try done.
  unfold checkManagerAccess. simpl. rewrite Hp, Hrole. done.
Qed.

Lemma student_update_changes_nothing_witness :
  db_profiles ex_store !! ex_student
  = Some {| p_name := js "Asha"; p_role := student;
            p_hub := Some (js "Kochi Hub") |} ∧
  update_complaints ex_store (Some ex_student) (c_id ex_complaint)
                    (with_status resolved) 400 = ok ex_store ∧
  (assignComplaint ex_store (Some ex_student) (c_id ex_complaint)
                   (Some ex_manager) 400).1 = ex_store.
Proof.
  assert (Hp : db_profiles ex_store !! ex_student
               = Some {| p_name := js "Asha"; p_role := student;
                         p_hub := Some (js "Kochi Hub") |})
    by (vm_compute; reflexivity).
  destruct (student_update_changes_nothing ex_store ex_student _
              (c_id ex_complaint) resolved (Some ex_manager) 400 Hp eq_refl)
    as (Ha & _ & _ & Hb & _).
  split_and!; [exact Hp|exact Ha|exact Hb].
Defined.

(** C4.  On a row without a submitter the read policy does not hold for a
    student: no student's list has such a row, and a stored one is listed
    exactly for managers and admins.  The insert of [handleSubmit] asks for
    the new row back, and the store applies the read policy to that row
    too; so a student's submission with the anonymous switch on is refused
    by the store, whatever the form holds: nothing is stored, for managers
    and admins neither, and a valid form ends in the store's error. *)
Theorem student_anonymous_submission_is_refused d s p :
  db_profiles d !! s = Some p →
  p_role p = student →
  (∀ c, c_user_id c = None →
        holds (complaints_select_policy d (Some s) c) = false ∧
        (c ∉ fetchComplaints d (Some s))) ∧
  (∀ c uid, c ∈ db_complaints d → c_user_id c = None →
            (c ∈ fetchComplaints d uid ↔ is_manager_or_admin d uid = true)) ∧
  (∀ files form env,
     (handleSubmit true d (Some s) true files form env).1 = d ∧
     (complaintSchema (read_form form) = [] →
      handleSubmit true d (Some s) true files form env
      = (d, [toast_error_store (rls_violation "complaints")]))).
Proof.
  intros Hp Hrole.
  assert (Hs : is_manager_or_admin d (Some s) = false).
  { rewrite (is_manager_or_admin_role _ _ _ Hp), Hrole.
    apply bool_decide_eq_false_2. intros Hn. by apply Hn. }
  assert (Hpol : ∀ c, c_user_id c = None →
                      holds (complaints_select_policy d (Some s) c) = false).
  { intros c Hu. by rewrite complaints_select_policy_null. }
  assert (Hins : ∀ row, c_user_id row = None →
                        c_is_anonymous row = Some true →
                        insert_complaint true d (Some s) row
                        = err (rls_violation "complaints")).
  { intros row Hu Ha. unfold insert_complaint, complaints_insert_policy.
    rewrite Hu, Ha, (Hpol row Hu). done. }
  split_and!.
  - intros c Hu. split; [by apply Hpol|].
    rewrite fetchComplaints_elem. intros [_ H]. rewrite Hpol in H; done.
  - intros c uid Hc Hu. rewrite fetchComplaints_elem.
    rewrite (complaints_select_policy_null _ _ _ Hu). tauto.
  - intros files form env. split.
    + unfold handleSubmit.
      destruct (complaintSchema (read_form form)); [|done].
      destruct (complaintData _ _ _ _) as [row|e] eqn:Hrow; [|done].
      apply complaintData_fields in Hrow as (_ & Hu & Ha).
      by rewrite (Hins row Hu Ha).
    + intros Hvalid.
      destruct (complaintData_valid (Some s) true form env Hvalid)
        as (row & Hrow).
      unfold handleSubmit. rewrite Hvalid, Hrow.
      apply complaintData_fields in Hrow as (_ & Hu & Ha).
      by rewrite (Hins row Hu Ha).
Qed.

Lemma student_anonymous_submission_is_refused_witness :
  db_profiles ex_store !! ex_student
  = Some {| p_name := js "Asha"; p_role := student;
            p_hub := Some (js "Kochi Hub") |} ∧
  complaintSchema (read_form ex_form) = [] ∧
  handleSubmit true ex_store (Some ex_student) true [ex_file] ex_form
               ex_submit_env
  = (ex_store, [toast_error_store (rls_violation "complaints")]) ∧
  (ex_anonymous_complaint ∉ fetchComplaints ex_store (Some ex_student)) ∧
  (ex_anonymous_complaint ∈ fetchComplaints ex_store (Some ex_manager)).
Proof.
  assert (Hp : db_profiles ex_store !! ex_student
               = Some {| p_name := js "Asha"; p_role := student;
                         p_hub := Some (js "Kochi Hub") |})
    by (vm_compute; reflexivity).
  assert (Hvalid : complaintSchema (read_form ex_form) = [])
    by (vm_compute; reflexivity).
  destruct (student_anonymous_submission_is_refused ex_store ex_student _
              Hp eq_refl) as (Hhidden & Hstaff & Hrefused).
  split_and!; [exact Hp|exact Hvalid| | |].
  - by apply (Hrefused [ex_file] ex_form ex_submit_env).
  - by apply (Hhidden ex_anonymous_complaint).
  - apply (Hstaff ex_anonymous_complaint (Some ex_manager));
      [by_compute|reflexivity|vm_compute; reflexivity].
Defined.

(** C5.  A blank text (empty, or white space only) is stopped by
    [sendMessage]: nothing is stored.  Any other text, sent from the page
    of a loaded complaint, is stored (trimmed) as a new message, and the
    reloaded thread holds all messages of that complaint, the new one
    among them, in ascending order of [created_at]. *)
Theorem sendMessage_validates_and_appends d u id v0 v vb env :
  trim (dv_newMessage vb) = [] →
  fetchComplaintDetails d (Some u) id v0 = (v, []) →
  trim (dv_newMessage v) ≠ [] →
  is_Some (db_profiles d !! u) →
  (∀ m, m ∈ db_messages d → m_id m ≠ message_uuid env) →
  sendMessage d (Some u) id vb env = (d, vb, []) ∧
  ∃ c v',
    let msg := sent_message (Some u) c (trim (dv_newMessage v)) env in
    dv_complaint v = Some c ∧
    sendMessage d (Some u) id v env
    = (set_messages d (db_messages d ++ [msg]), v',
       [toast_success "Message sent"]) ∧
    dv_messages v' ≡ₚ
      filter (λ m, m_complaint_id m = id) (db_messages d ++ [msg]) ∧
    StronglySorted older_first (dv_messages v') ∧
    msg ∈ dv_messages v'.
Proof.
  intros Hblank Hload Htext Hprof Hfresh. split.
  { unfold sendMessage. by rewrite Hblank. }
  unfold fetchComplaintDetails in Hload.
  destruct (single _) as [c|e] eqn:Hone; [|done].
  apply single_ok in Hone. injection Hload as <-.
  assert (Hc : c ∈ filter (λ x, c_id x = id) (select_complaints d (Some u)))
    by (rewrite Hone; left).
  apply list_elem_of_filter in Hc as [Hid Hc].
  apply list_elem_of_filter in Hc as [_ Hc].
  simpl in Htext. simpl.
  destruct (trim (dv_newMessage v0)) as [|b body] eqn:Hbody; [done|].
  set (msg := sent_message (Some u) c (b :: body) env).
  set (d1 := set_messages d (db_messages d ++ [msg])).
  assert (Hone1 : filter (λ x, c_id x = id) (select_complaints d1 (Some u))
                  = [c]).
  { by rewrite (select_complaints_ext d d1). }
  set (cleared := Build_detail_view (Some c)
    (merge_sort older_first
       (filter (λ m, m_complaint_id m = id) (select_messages d (Some u))))
    []).
  destruct (fetchComplaintDetails_thread d1 (Some u) id cleared c Hone1)
    as (Hfetch & Hperm & Hsorted).
  exists c, (Build_detail_view (Some c)
    (merge_sort older_first
       (filter (λ m, m_complaint_id m = id) (select_messages d1 (Some u))))
    []).
  simpl. split_and!; [done| |exact Hperm|exact Hsorted|].
  - unfold sendMessage. simpl. rewrite Hbody. fold msg.
    unfold msg at 1.
    rewrite (insert_message_accepted d u c (b :: body) env Hc Hprof Hfresh).
    fold msg d1 cleared. rewrite Hfetch. reflexivity.
  - rewrite Hperm. simpl. rewrite filter_app. apply elem_of_app. right.
    rewrite filter_cons_True by done. left.
Qed.

Lemma sendMessage_validates_and_appends_witness :
  trim (dv_newMessage ex_view) = [] ∧
  fetchComplaintDetails ex_store (Some ex_manager)
    (c_id ex_anonymous_complaint) ex_typed_view = (ex_manager_view, []) ∧
  trim (dv_newMessage ex_manager_view) ≠ [] ∧
  is_Some (db_profiles ex_store !! ex_manager) ∧
  (∀ m, m ∈ db_messages ex_store → m_id m ≠ message_uuid ex_message_env) ∧
  sendMessage ex_store (Some ex_manager) (c_id ex_anonymous_complaint)
              ex_view ex_message_env = (ex_store, ex_view, []) ∧
  ∃ v', sendMessage ex_store (Some ex_manager) (c_id ex_anonymous_complaint)
                    ex_manager_view ex_message_env
        = (set_messages ex_store (db_messages ex_store ++ [ex_sent]), v',
           [toast_success "Message sent"]) ∧
        ex_sent ∈ dv_messages v'.
Proof.
  assert (H1 : trim (dv_newMessage ex_view) = []) by reflexivity.
  assert (H2 : fetchComplaintDetails ex_store (Some ex_manager)
                 (c_id ex_anonymous_complaint) ex_typed_view
               = (ex_manager_view, [])) by (vm_compute; reflexivity).
  assert (H3 : trim (dv_newMessage ex_manager_view) ≠ [])
    by (vm_compute; discriminate).
  assert (H4 : is_Some (db_profiles ex_store !! ex_manager))
    by (eexists; vm_compute; reflexivity).
  assert (H5 : ∀ m, m ∈ db_messages ex_store →
                    m_id m ≠ message_uuid ex_message_env)
    by (intros m Hm; by apply elem_of_nil in Hm).
  destruct (sendMessage_validates_and_appends ex_store ex_manager
              (c_id ex_anonymous_complaint) ex_typed_view ex_manager_view
              ex_view ex_message_env H1 H2 H3 H4 H5)
    as (Hblank & c & v' & Hc & Hsend & _ & _ & Hin).
  injection Hc as <-.
  split_and!; [exact H1|exact H2|exact H3|exact H4|exact H5|exact Hblank|].
  exists v'. split; [exact Hsend|exact Hin].
Defined.

(** C6.  The thread of a complaint is append-only.  After any sequence of
    writes of the pages, and of requests a client may send to update or
    delete messages or to delete complaints, the messages stored before
    are all still there, in place and unchanged (id, body, sender and
    timestamp).  No complaint is removed either, so no thread goes with
    its complaint. *)
Theorem messages_append_only d actions :
  (∃ new, db_messages (run_all d actions) = db_messages d ++ new) ∧
  (∀ i m, db_messages d !! i = Some m →
          db_messages (run_all d actions) !! i = Some m) ∧
  (∀ c, c ∈ db_complaints d →
        c_id c ∈ c_id <$> db_complaints (run_all d actions)).
Proof.
  assert (H : (∃ new, db_messages (run_all d actions) = db_messages d ++ new) ∧
              (∃ new, c_id <$> db_complaints (run_all d actions)
                      = (c_id <$> db_complaints d) ++ new)).
  { unfold run_all. revert d.
    induction actions as [|a actions IH]; intros d; simpl.
    - split; exists []; by rewrite app_nil_r.
    - destruct (IH (run d a)) as ((n1 & ->) & (n2 & ->)).
      destruct (run_tables d a) as ((n3 & ->) & (n4 & ->)).
      split; eexists; by rewrite <-app_assoc. }
  destruct H as ((n1 & Hm) & (n2 & Hc)). split_and!.
  - by exists n1.
  - intros i m Hi. rewrite Hm. by apply lookup_app_l_Some.
  - intros c Hin. rewrite Hc. apply elem_of_app. left.
    by apply list_elem_of_fmap_2.
Qed.

(** C7, as first stated, fails: lengths are not taken on the submitted
    values.  A title of five characters that are mostly blanks is refused,
    and a title of 201 characters ending in a blank passes validation. *)
Lemma submitted_length_is_not_what_is_checked :
  length ex_padded_title = 5%nat ∧
  handleSubmit false ex_store (Some ex_student) false []
               (ex_form_with_title ex_padded_title) ex_submit_env
  = (ex_store,
     [toast_error_zod
        (too_small "title" "Title must be at least 5 characters")]) ∧
  length ex_long_title = 201%nat ∧
  complaintSchema (read_form (ex_form_with_title ex_long_title)) = [].
Proof. split_and!; vm_compute; reflexivity. Qed.

(** C7 (as amended).  The bounds on title and description are taken on the
    trimmed text: a submission gets past validation exactly when the title
    has 5 to 200 characters and the description 20 to 2000 characters
    after leading and trailing white space is removed (and the other
    fields are valid); a title or description outside these bounds after
    trimming is answered with a validation error and nothing is stored. *)
Theorem complaint_text_bounds_after_trim
    rls d user anon files form env title description :
  fd_title form = js_str title →
  fd_description form = js_str description →
  let within :=
    ((5 ≤ length (trim title) ≤ 200)%nat ∧
     (20 ≤ length (trim description) ≤ 2000)%nat) in
  (within ∧ other_fields_valid form ↔
   ∀ issue,
     toast_error_zod issue ∉ (handleSubmit rls d user anon files form env).2) ∧
  (¬ within →
   ∃ issue, handleSubmit rls d user anon files form env
            = (d, [toast_error_zod issue])).
Proof.
  intros Ht Hd within.
  assert (Hnil : complaintSchema (read_form form) = [] ↔
                 within ∧ other_fields_valid form).
  { rewrite complaintSchema_nil. split.
    - intros ((t & ds & Ht' & Hd' & Htl & Hdl) & Hov).
      rewrite Ht in Ht'. rewrite Hd in Hd'.
      injection Ht' as <-. injection Hd' as <-. done.
    - intros ([Htl Hdl] & Hov). split; [|done]. by exists title, description. }
  split; [split|].
  - intros Hok%Hnil issue. by apply handleSubmit_valid.
  - intros Hnone. apply Hnil.
    destruct (complaintSchema (read_form form)) as [|i rest] eqn:Hs; [done|].
    destruct (handleSubmit_invalid rls d user anon files form env)
      as (issue & Hres); [by rewrite Hs|].
    exfalso. apply (Hnone issue). rewrite Hres. simpl. left.
  - intros Hout. apply handleSubmit_invalid. intros Hs. apply Hout.
    by apply Hnil in Hs as [? _].
Qed.

Lemma complaint_text_bounds_after_trim_witness :
  fd_title ex_form = js_str (js "Broken wifi") ∧
  fd_description ex_form
  = js_str (js "The wifi in lab 1 is down since monday") ∧
  ∀ issue,
    toast_error_zod issue ∉
    (handleSubmit false ex_store (Some ex_student) false [] ex_form
                  ex_submit_env).2.
Proof.
  split; [reflexivity|]. split; [reflexivity|].
  apply (complaint_text_bounds_after_trim false ex_store (Some ex_student)
           false [] ex_form ex_submit_env _ _ eq_refl eq_refl).
  split; [by vm_compute; lia|].
  split_and!.
  - exists "network". split; [by_compute|reflexivity].
  - eexists. split; [reflexivity|]. vm_compute. lia.
  - eexists. split; [reflexivity|]. split; [done|]. vm_compute. lia.
  - exists "high". split; [by_compute|reflexivity].
Defined.

(** C8.  In the form, a file of exactly 10 MiB is taken and a file one byte
    larger is turned away with an error; nothing is added to five chosen
    files; the list of chosen files never holds more than five, whatever is
    selected or removed, and a submission records at most five attachments
    for its complaint. *)
Theorem file_limits_at_the_form prev full sel name type :
  (length prev < 5)%nat →
  length full = 5%nat →
  let exact :=
    {| file_name := name; file_size := 10 * 1024 * 1024;
       file_type := type |} in
  let over :=
    {| file_name := name; file_size := 10 * 1024 * 1024 + 1;
       file_type := type |} in
  handleFileChange prev [exact] = (prev ++ [exact], []) ∧
  handleFileChange prev [over] = (prev, [name]) ∧
  (handleFileChange full sel).1 = full ∧
  (length (handleFileChange prev sel).1 ≤ 5)%nat ∧
  ∀ events,
    let files := foldl files_step [] events in
    (length files ≤ 5)%nat ∧
    ∀ rls d user anon form env, ∃ new,
      db_attachments (handleSubmit rls d user anon files form env).1
      = db_attachments d ++ new ∧
      (length new ≤ 5)%nat ∧
      Forall (λ a, a_complaint_id a = complaint_uuid env) new.
Proof.
  intros Hprev Hfull exact over. split_and!.
  - unfold handleFileChange. simpl. f_equal.
    apply take_ge. rewrite length_app. simpl. lia.
  - unfold handleFileChange. simpl. f_equal.
    rewrite app_nil_r. apply take_ge. lia.
  - by apply handleFileChange_full.
  - apply handleFileChange_length.
  - intros events files. pose proof (files_state_length events) as Hlen.
    split; [done|]. intros rls d user anon form env.
    destruct (handleSubmit_attachments rls d user anon files form env)
      as (new & Heq & Hnew & Hall).
    exists new. split_and!; [done|unfold files in Hnew; lia|done].
Qed.

Lemma file_limits_at_the_form_witness :
  let exact :=
    {| file_name := js "scan.pdf"; file_size := 10485760;
       file_type := js "application/pdf" |} in
  let over :=
    {| file_name := js "scan.pdf"; file_size := 10485761;
       file_type := js "application/pdf" |} in
  (length [ex_file] < 5)%nat ∧
  length (replicate 5 ex_file) = 5%nat ∧
  handleFileChange [ex_file] [exact] = ([ex_file; exact], []) ∧
  handleFileChange [ex_file] [over] = ([ex_file], [js "scan.pdf"]) ∧
  (handleFileChange (replicate 5 ex_file) [exact]).1 = replicate 5 ex_file.
Proof.
  intros exact over.
  assert (H1 : (length [ex_file] < 5)%nat) by (simpl; lia).
  assert (H2 : length (replicate 5 ex_file) = 5%nat) by reflexivity.
  destruct (file_limits_at_the_form [ex_file] (replicate 5 ex_file) [exact]
              (js "scan.pdf") (js "application/pdf") H1 H2)
    as (Ha & Hb & Hc & _).
  split_and!; [exact H1|exact H2|exact Ha|exact Hb|exact Hc].
Defined.

(** C9.  An object written by the upload loop is named under the id of the
    complaint just created: that id is the first folder of its name.  The
    owner clause of the storage read policy compares this folder with the
    caller's id, so it is false for every user (a complaint id is no
    user's id), the uploader included; the policy lets the object be read
    exactly by managers and admins. *)
Theorem attachment_objects_readable_by_staff_only
    rls d user anon files form env b name s p :
  is_uuid (complaint_uuid env) = true →
  db_profiles d !! complaint_uuid env = None →
  db_objects d !! (b, name) = None →
  is_Some (db_objects (handleSubmit rls d user anon files form env).1
           !! (b, name)) →
  db_profiles d !! s = Some p →
  let d' := (handleSubmit rls d user anon files form env).1 in
  b = js "complaint-attachments" ∧
  complaint_uuid env ∈ c_id <$> db_complaints d' ∧
  storage_foldername name !! 0%nat = Some (complaint_uuid env) ∧
  objects_owner_clause (Some s) name = Some false ∧
  holds (objects_select_policy d' (Some s) b name)
  = bool_decide (p_role p ≠ student).
Proof.
  intros Huuid Hfresh Hnone Hsome Hp d'. subst d'.
  destruct (handleSubmit_objects rls d user anon files form env b name
              Hnone Hsome) as (-> & (t & f & ->) & c & Hc & Hid).
  destruct (handleSubmit_tables rls d user anon files form env)
    as (Hprof & _ & _).
  assert (Hfolder : storage_foldername
                      (fileName (complaint_uuid env) t f) !! 0%nat
                    = Some (complaint_uuid env))
    by by apply fileName_first_folder, is_uuid_no_slash.
  assert (Hs : s ≠ complaint_uuid env) by congruence.
  assert (Howner : objects_owner_clause (Some s)
                     (fileName (complaint_uuid env) t f) = Some false).
  { unfold objects_owner_clause. rewrite Hfolder. simpl.
    by rewrite bool_decide_eq_false_2. }
  split_and!; [done| |done|done|].
  - rewrite <-Hid. by apply list_elem_of_fmap_2.
  - unfold objects_select_policy. rewrite Howner.
    rewrite bool_decide_eq_true_2 by done.
    rewrite (is_manager_or_admin_role _ s p) by by rewrite Hprof.
    by destruct (bool_decide (p_role p ≠ student)).
Qed.

Lemma attachment_objects_readable_by_staff_only_witness :
  let d' := (handleSubmit false ex_store (Some ex_student) true [ex_file]
                          ex_form ex_submit_env).1 in
  is_uuid (complaint_uuid ex_submit_env) = true ∧
  db_profiles ex_store !! complaint_uuid ex_submit_env = None ∧
  db_objects ex_store !! (js "complaint-attachments", ex_object_name) = None ∧
  is_Some (db_objects d' !! (js "complaint-attachments", ex_object_name)) ∧
  db_profiles ex_store !! ex_student
  = Some {| p_name := js "Asha"; p_role := student;
            p_hub := Some (js "Kochi Hub") |} ∧
  storage_foldername ex_object_name !! 0%nat
  = Some (complaint_uuid ex_submit_env) ∧
  holds (objects_select_policy d' (Some ex_student)
           (js "complaint-attachments") ex_object_name) = false.
Proof.
  intros d'.
  assert (H1 : is_uuid (complaint_uuid ex_submit_env) = true)
    by (vm_compute; reflexivity).
  assert (H2 : db_profiles ex_store !! complaint_uuid ex_submit_env = None)
    by (vm_compute; reflexivity).
  assert (H3 : db_objects ex_store
               !! (js "complaint-attachments", ex_object_name) = None)
    by (vm_compute; reflexivity).
  assert (H4 : is_Some (db_objects d'
                        !! (js "complaint-attachments", ex_object_name)))
    by (eexists; vm_compute; reflexivity).
  assert (H5 : db_profiles ex_store !! ex_student
               = Some {| p_name := js "Asha"; p_role := student;
                         p_hub := Some (js "Kochi Hub") |})
    by (vm_compute; reflexivity).
  destruct (attachment_objects_readable_by_staff_only false ex_store
              (Some ex_student) true [ex_file] ex_form ex_submit_env
              (js "complaint-attachments") ex_object_name ex_student _
              H1 H2 H3 H4 H5) as (_ & _ & Hfolder & _ & Hpol).
  split_and!; [exact H1|exact H2|exact H3|exact H4|exact H5|exact Hfolder|].
  exact Hpol.
Defined.

(** C10.  A message stored by [sendMessage] for a signed-in user carries
    that user's id as [sender_id], never NULL, whatever the complaint it
    belongs to: an anonymous complaint makes no difference. *)
Theorem sent_message_names_its_sender d u id v env m :
  m ∈ db_messages (sendMessage d (Some u) id v env).1.1 →
  m ∉ db_messages d →
  m_sender_id m = Some u ∧
  ∃ c, dv_complaint v = Some c ∧ m_complaint_id m = c_id c ∧
       m_body m = trim (dv_newMessage v).
Proof.
  intros Hin Hnew.
  destruct (sendMessage_store d (Some u) id v env)
    as [Heq|(c & Hc & _ & _ & Heq)]; rewrite Heq in Hin; [done|].
  simpl in Hin. apply elem_of_app in Hin as [Hin|Hin]; [done|].
  apply list_elem_of_singleton in Hin as ->. simpl.
  split; [done|]. by exists c.
Qed.

Lemma sent_message_names_its_sender_witness :
  (ex_sent ∈ db_messages
     (sendMessage ex_store (Some ex_manager) (c_id ex_anonymous_complaint)
                  ex_manager_view ex_message_env).1.1) ∧
  (ex_sent ∉ db_messages ex_store) ∧
  c_is_anonymous ex_anonymous_complaint = Some true ∧
  m_sender_id ex_sent = Some ex_manager.
Proof.
  assert (Hin : ex_sent ∈ db_messages
     (sendMessage ex_store (Some ex_manager) (c_id ex_anonymous_complaint)
                  ex_manager_view ex_message_env).1.1) by by_compute.
  assert (Hnew : ex_sent ∉ db_messages ex_store) by by_compute.
  destruct (sent_message_names_its_sender _ _ _ _ _ _ Hin Hnew) as [Hs _].
  split_and!; [exact Hin|exact Hnew|reflexivity|exact Hs].
Defined.

(** ** Further properties *)

(** *** Trimming *)

Lemma trimStart_split s :
  ∃ p, s = p ++ trimStart s ∧ forallb is_white_space p = true ∧
       ∀ c, head (trimStart s) = Some c → is_white_space c = false.
Proof.
  induction s as [|c s (p & Hs & Hp & Hhead)]; simpl.
  { exists []. split_and!; try done. }
  destruct (is_white_space c) eqn:Hc.
  - exists (c :: p). simpl. rewrite Hc, Hp. split_and!; try done.
    by rewrite <-Hs.
  - exists []. split_and!; try done. simpl. by intros ? [= <-].
Qed.

Lemma trimStart_nil s :
  trimStart s = [] ↔ forallb is_white_space s = true.
Proof.
  induction s as [|c s IH]; simpl; [done|].
  destruct (is_white_space c); simpl; [done|]. split; discriminate.
Qed.

Lemma forallb_reverse {A} (f : A → bool) l :
  forallb f (reverse l) = forallb f l.
Proof.
  induction l as [|x l IH]; [done|].
  rewrite reverse_cons, forallb_app, IH. simpl.
  rewrite andb_true_r. apply andb_comm.
Qed.

(** A text trims to nothing exactly when it consists of white space. *)
Lemma trim_nil s : trim s = [] ↔ forallb is_white_space s = true.
Proof.
  unfold trim, trimEnd.
  destruct (trimStart_split s) as (p & Hs & Hp & Hhead).
  rewrite <-trimStart_nil.
  split.
  - intros H. apply (f_equal reverse) in H. rewrite reverse_involutive in H.
    simpl in H. apply trimStart_nil in H. rewrite forallb_reverse in H.
    destruct (trimStart s) as [|c t]; [done|].
    simpl in H. rewrite (Hhead c eq_refl) in H. done.
  - intros ->. done.
Qed.

(** A trimmed text neither starts nor ends with white space. *)
Lemma trim_ends s c :
  (head (trim s) = Some c → is_white_space c = false) ∧
  (last (trim s) = Some c → is_white_space c = false).
Proof.
  unfold trim, trimEnd.
  destruct (trimStart_split s) as (_ & _ & _ & Hhead).
  destruct (trimStart_split (reverse (trimStart s))) as (q & Hr & Hq & Hlast).
  set (t := trimStart s) in *. set (r := trimStart (reverse t)) in *.
  split.
  - intros Hc. apply Hhead.
    apply (f_equal reverse) in Hr. rewrite reverse_involutive, reverse_app in Hr.
    rewrite Hr. destruct (reverse r); [done|]. done.
  - rewrite last_reverse. apply Hlast.
Qed.

(** *** Sending a message *)

(** X1.  [sendMessage] does nothing at all (store and page as before, no
    notification) exactly when the typed text consists of white space only
    (the empty text included) or no complaint is loaded. *)
Theorem sendMessage_silent_iff d user id v env :
  sendMessage d user id v env = (d, v, []) ↔
  forallb is_white_space (dv_newMessage v) = true ∨ dv_complaint v = None.
Proof.
  rewrite <-trim_nil. unfold sendMessage. split.
  - destruct (trim (dv_newMessage v)) as [|b body]; [by left|].
    destruct (dv_complaint v) as [c|]; [|by right].
    destruct (insert_message _ _ _) as [d1|e]; [|done].
    destruct (fetchComplaintDetails _ _ _ _) as [v' toasts].
    intros [= _ _ H]. by destruct toasts.
  - intros [->|Hc]; [done|]. rewrite Hc.
    by destruct (trim (dv_newMessage v)).
Qed.

(** X2.  The body of a message stored by [sendMessage] is never empty and
    neither starts nor ends with white space: it is the typed text with
    the white space around it removed. *)
Theorem sent_message_body_is_trimmed d user id v env m :
  m ∈ db_messages (sendMessage d user id v env).1.1 →
  m ∉ db_messages d →
  m_body m = trim (dv_newMessage v) ∧
  m_body m ≠ [] ∧
  (∀ c, head (m_body m) = Some c → is_white_space c = false) ∧
  (∀ c, last (m_body m) = Some c → is_white_space c = false).
Proof.
  intros Hin Hnew.
  destruct (sendMessage_store d user id v env)
    as [Heq|(c & Hc & Hbody & _ & Heq)]; rewrite Heq in Hin; [done|].
  simpl in Hin. apply elem_of_app in Hin as [Hin|Hin]; [done|].
  apply list_elem_of_singleton in Hin as ->. simpl.
  split_and!; [done|done|intros x; apply trim_ends|intros x; apply trim_ends].
Qed.

Lemma sent_message_body_is_trimmed_witness :
  (ex_sent ∈ db_messages
     (sendMessage ex_store (Some ex_manager) (c_id ex_anonymous_complaint)
                  ex_manager_view ex_message_env).1.1) ∧
  (ex_sent ∉ db_messages ex_store) ∧
  dv_newMessage ex_manager_view = js "  Any update on this?  " ∧
  m_body ex_sent = trim (dv_newMessage ex_manager_view).
Proof.
  assert (Hin : ex_sent ∈ db_messages
     (sendMessage ex_store (Some ex_manager) (c_id ex_anonymous_complaint)
                  ex_manager_view ex_message_env).1.1) by by_compute.
  assert (Hnew : ex_sent ∉ db_messages ex_store) by by_compute.
  destruct (sent_message_body_is_trimmed _ _ _ _ _ _ Hin Hnew) as [Hb _].
  split_and!; [exact Hin|exact Hnew|reflexivity|exact Hb].
Defined.

(** *** Submitting *)

Lemma split_on_no_sep sep s : sep ∉ s → split_on sep s = [s].
Proof.
  induction s as [|a s IH]; [done|]. simpl.
  intros [Ha Hs]%not_elem_of_cons.
  destruct (N.eqb_spec a sep); [done|]. by rewrite IH.
Qed.

Lemma split_on_singleton sep s x : split_on sep s = [x] → x = s ∧ sep ∉ s.
Proof.
  revert x. induction s as [|a s IH]; intros x; simpl.
  { intros [= <-]. split; [done|apply not_elem_of_nil]. }
  destruct (N.eqb_spec a sep) as [->|Hne].
  - intros [= _ H]. by destruct (split_on_nonempty sep s).
  - destruct (split_on sep s) as [|w ws] eqn:Hsp;
      [by destruct (split_on_nonempty sep s)|].
    intros [= <- ->]. destruct (IH w eq_refl) as [-> Hs].
    split; [done|]. by apply not_elem_of_cons.
Qed.

Lemma split_on_last sep s :
  ∃ w, last (split_on sep s) = Some w ∧ (sep ∉ w) ∧
       ((sep ∉ s) ∧ w = s ∨ ∃ stem, s = stem ++ sep :: w).
Proof.
  induction s as [|c s (w & Hlast & Hw & Hsplit)]; simpl.
  { exists []. split_and!; [done|apply not_elem_of_nil|].
    left. split; [apply not_elem_of_nil|done]. }
  pose proof (split_on_nonempty sep s) as Hn.
  destruct (split_on sep s) as [|x xs] eqn:Hsp; [done|].
  destruct (N.eqb_spec c sep) as [->|Hne].
  - exists w. split_and!; [done|done|]. right.
    destruct Hsplit as [[_ ->]|(stem & ->)];
      [by exists []|by exists (sep :: stem)].
  - destruct xs as [|y ys].
    + simpl in Hlast. injection Hlast as ->.
      destruct (split_on_singleton sep s w Hsp) as [-> Hs].
      exists (c :: s).
      assert (sep ∉ c :: s) by by apply not_elem_of_cons.
      split_and!; [done|done|by left].
    + exists w. split_and!; [done|done|]. right.
      destruct Hsplit as [[Hnot _]|(stem & ->)]; [|by exists (c :: stem)].
      by rewrite (split_on_no_sep _ _ Hnot) in Hsp.
Qed.

(** X3.  The object name of an attachment is the complaint id, a slash, the
    clock reading and a dot followed by the extension.  The extension holds
    no dot and is the part of the file name after its last dot: the file
    name is some stem, a dot and the extension.  For a file name without a
    dot it is the whole file name. *)
Theorem fileName_extension complaint_id date_now f :
  ∃ ext,
    fileName complaint_id date_now f
    = complaint_id ++ js "/" ++ decimal date_now ++ js "." ++ ext ∧
    (46 ∉ ext) ∧
    ((46 ∉ file_name f) ∧ ext = file_name f ∨
     ∃ stem, file_name f = stem ++ 46 :: ext).
Proof.
  destruct (split_on_last 46 (file_name f)) as (w & Hlast & Hw & Hsplit).
  exists w. unfold fileName. rewrite Hlast. simpl. done.
Qed.

(** X4.  A form that passes validation always makes a row: the enum casts
    of the store cannot fail on it.  The row holds title, description and
    hub exactly as submitted (not trimmed), the room that was filled in,
    status 'new' and no manager. *)
Theorem validated_form_makes_a_row user anon form env :
  complaintSchema (read_form form) = [] →
  ∃ row,
    complaintData user anon (read_form form) env = ok row ∧
    fd_title form = js_str (c_title row) ∧
    fd_description form = js_str (c_description row) ∧
    fd_hub form = js_str (c_hub row) ∧
    (∃ room, fd_room form = js_str room ∧ c_room row = Some room) ∧
    c_status row = new ∧ c_manager_id row = None ∧
    c_created_at row = complaint_now env ∧
    c_updated_at row = complaint_now env.
Proof.
  intros ((t & ds & Ht & Hd & _ & _) & (c & Hc & Hcat) & (h & Hhub & _) &
          (r & Hroom & Hr & _) & (p & Hp & Hprio))%complaintSchema_nil.
  destruct (complaint_category_in_values c Hc) as [cat Hcat'].
  destruct (complaint_priority_in_values p Hp) as [prio Hprio'].
  unfold complaintData, read_form. simpl.
  rewrite Ht, Hd, Hhub, Hcat, Hprio, Hroom. simpl.
  rewrite Hcat', Hprio'. eexists. split; [reflexivity|]. simpl.
  split_and!; try done. exists r. split; [done|]. by destruct r.
Qed.

Lemma validated_form_makes_a_row_witness :
  complaintSchema (read_form ex_form) = [] ∧
  ∃ row,
    complaintData (Some ex_student) true (read_form ex_form) ex_submit_env
    = ok row ∧
    c_title row = js "Broken wifi".
Proof.
  assert (H : complaintSchema (read_form ex_form) = [])
    by (vm_compute; reflexivity).
  split; [exact H|].
  destruct (validated_form_makes_a_row (Some ex_student) true ex_form
              ex_submit_env H) as (row & Hrow & Ht & _).
  exists row. split; [exact Hrow|]. by injection Ht.
Defined.

(** X5.  A submission ends in one of two ways.  Either it is refused, by
    validation or by the store, with a single error notification and the
    store exactly as before (no file was uploaded); or the complaint row
    is stored and success is reported, whatever became of the uploads. *)
Theorem handleSubmit_outcome rls d user anon files form env :
  let r := handleSubmit rls d user anon files form env in
  (r.1 = d ∧
   ((∃ issue, r.2 = [toast_error_zod issue]) ∨
    (∃ e, r.2 = [toast_error_store e]))) ∨
  (r.2 = [toast_success "Complaint submitted successfully!"] ∧
   ∃ row, complaintData user anon (read_form form) env = ok row ∧
          db_complaints r.1 = db_complaints d ++ [row]).
Proof.
  unfold handleSubmit.
  destruct (complaintSchema (read_form form)) as [|issue rest]; simpl;
    [|left; split; [done|left; by exists issue]].
  destruct (complaintData _ _ _ _) as [row|e] eqn:Hrow; simpl;
    [|left; split; [done|right; by exists e]].
  destruct (insert_complaint _ _ _ _) as [[d1 c]|e] eqn:Hins; simpl;
    [|left; split; [done|right; by exists e]].
  right. split; [done|]. exists row. split; [done|].
  apply insert_complaint_ok in Hins as (-> & -> & _).
  destruct (upload_files_spec files (set_complaints d (db_complaints d ++ [row]))
              user anon (c_id row) env 0%nat) as (_ & Hc & _).
  by rewrite Hc.
Qed.

(** X6.  Without a signed-in user, a submission that is not anonymous never
    gets in: a valid form is refused by the INSERT policy ([auth.uid()] and
    [user_id] are both NULL, and NULL = NULL is not true) and the store
    stays as it was. *)
Theorem signed_out_submission_is_refused rls d files form env :
  complaintSchema (read_form form) = [] →
  handleSubmit rls d None false files form env
  = (d, [toast_error_store (rls_violation "complaints")]).
Proof.
  intros Hvalid.
  destruct (complaintData_valid None false form env Hvalid) as (row & Hrow).
  unfold handleSubmit. rewrite Hvalid, Hrow.
  apply complaintData_fields in Hrow as (_ & Hu & Ha).
  unfold insert_complaint, complaints_insert_policy. rewrite Hu, Ha. done.
Qed.

Lemma signed_out_submission_is_refused_witness :
  complaintSchema (read_form ex_form) = [] ∧
  handleSubmit true ex_store None false [ex_file] ex_form ex_submit_env
  = (ex_store, [toast_error_store (rls_violation "complaints")]).
Proof.
  assert (H : complaintSchema (read_form ex_form) = [])
    by (vm_compute; reflexivity).
  split; [exact H|].
  exact (signed_out_submission_is_refused true ex_store [ex_file] ex_form
           ex_submit_env H).
Defined.

Lemma upload_files_rows files : ∀ d user anon cid env i,
  let d' := upload_files d user anon cid env i files in
  db_objects d ⊆ db_objects d' ∧
  ∃ new, db_attachments d' = db_attachments d ++ new ∧
         Forall (recorded d' cid (if anon then None else user) files) new.
Proof.
  induction files as [|f files IH]; intros d user anon cid env i; simpl.
  { split; [done|]. exists []. by rewrite app_nil_r. }
  set (name := fileName cid (upload_date_now env i) f).
  assert (Hweaken : ∀ d' a,
    recorded d' cid (if anon then None else user) files a →
    recorded d' cid (if anon then None else user) (f :: files) a).
  { intros d' a (? & ? & g & Hg & ?). split_and!; try done.
    exists g. split; [by right|done]. }
  destruct (storage_upload d user _ name f) as [du|e] eqn:Hup; simpl.
  2: { destruct (IH d user anon cid env (S i)) as (Hsub & new & Heq & Hall).
       split; [done|]. exists new. split; [done|].
       eapply Forall_impl; [exact Hall|]. intros a. apply Hweaken. }
  apply storage_upload_tables in Hup as (_ & _ & _ & Ha & Ho & _ & Hnone).
  set (row := Build_attachment _ _ _ _ _ _ _ _).
  assert (Hdu : db_objects d ⊆ db_objects du).
  { rewrite Ho. by apply insert_subseteq. }
  destruct (insert_attachment du user row) as [da|e] eqn:Hins.
  - apply insert_attachment_tables in Hins as (_ & _ & _ & Hoa & Hda).
    destruct (IH da user anon cid env (S i)) as (Hsub & new & Heq & Hall).
    split; [by etrans; [exact Hdu|rewrite <-Hoa]|].
    exists (row :: new). rewrite Heq, Hda, Ha, <-app_assoc.
    split; [done|]. constructor.
    + split_and!; try done. exists f. split; [left|].
      split_and!; try done. simpl.
      eapply lookup_weaken; [|exact Hsub]. rewrite Hoa, Ho.
      apply lookup_insert_eq.
    + eapply Forall_impl; [exact Hall|]. intros a. apply Hweaken.
  - destruct (IH du user anon cid env (S i)) as (Hsub & new & Heq & Hall).
    split; [by etrans|]. exists new. rewrite Heq, Ha. split; [done|].
    eapply Forall_impl; [exact Hall|]. intros a. apply Hweaken.
Qed.

Lemma handleSubmit_rows rls d user anon files form env :
  let d' := (handleSubmit rls d user anon files form env).1 in
  db_objects d ⊆ db_objects d' ∧
  ∃ new, db_attachments d' = db_attachments d ++ new ∧
         Forall (recorded d' (complaint_uuid env)
                          (if anon then None else user) files) new.
Proof.
  unfold handleSubmit.
  destruct (complaintSchema (read_form form)); simpl;
    [|split; [done|exists []; by rewrite app_nil_r]].
  destruct (complaintData _ _ _ _) as [row|e] eqn:Hrow; simpl;
    [|split; [done|exists []; by rewrite app_nil_r]].
  destruct (insert_complaint _ _ _ _) as [[d1 c]|e] eqn:Hins; simpl;
    [|split; [done|exists []; by rewrite app_nil_r]].
  apply insert_complaint_ok in Hins as (-> & -> & _).
  apply complaintData_fields in Hrow as (<- & _ & _).
  apply (upload_files_rows files
           (set_complaints d (db_complaints d ++ [row]))).
Qed.

(** X7.  Every attachment row a submission records belongs to the new
    complaint, repeats name, type and size of one of the chosen files and
    points at the object stored for that file; its uploader is NULL when
    the submission is anonymous and the signed-in user otherwise. *)
Theorem submission_attachments_are_backed rls d user anon files form env :
  let d' := (handleSubmit rls d user anon files form env).1 in
  ∃ new, db_attachments d' = db_attachments d ++ new ∧
         Forall (recorded d' (complaint_uuid env)
                          (if anon then None else user) files) new.
Proof. apply handleSubmit_rows. Qed.

(** X8.  A submission never overwrites or removes what is stored: the
    objects of the bucket and the attachment rows from before are all
    still there, unchanged. *)
Theorem submission_keeps_objects rls d user anon files form env :
  let d' := (handleSubmit rls d user anon files form env).1 in
  db_objects d ⊆ db_objects d' ∧
  db_attachments d `prefix_of` db_attachments d'.
Proof.
  destruct (handleSubmit_rows rls d user anon files form env)
    as (Hsub & new & Heq & _).
  split; [done|]. by exists new.
Qed.

Lemma handleSubmit_new_row rls d user anon files form env c :
  c ∈ db_complaints (handleSubmit rls d user anon files form env).1 →
  c ∉ db_complaints d →
  c_id c = complaint_uuid env ∧
  c_user_id c = (if anon then None else user) ∧
  c_is_anonymous c = Some anon ∧
  complaint_exists d (c_id c) = false ∧
  db_complaints (handleSubmit rls d user anon files form env).1
  = db_complaints d ++ [c].
Proof.
  intros Hin Hnew.
  destruct (handleSubmit_tables rls d user anon files form env)
    as (_ & _ & [Heq|(row & Hrow & Hfresh & Heq)]).
  - by rewrite Heq in Hin.
  - rewrite Heq in Hin. apply elem_of_app in Hin as [Hin|Hin]; [done|].
    apply list_elem_of_singleton in Hin as ->.
    apply complaintData_fields in Hrow as (Hid & Hu & Ha). done.
Qed.

(** The rows with a given id that a caller sees, when the last row stored
    is the only one with that id and the caller sees it. *)
Lemma select_new_complaint d uid cs c :
  db_complaints d = cs ++ [c] →
  (∀ x, x ∈ cs → c_id x ≠ c_id c) →
  holds (complaints_select_policy d uid c) = true →
  filter (λ x, c_id x = c_id c) (select_complaints d uid) = [c].
Proof.
  intros Hcs Hfresh Hvis. unfold select_complaints.
  rewrite Hcs, !filter_app. rewrite (filter_cons_True _ c) by done.
  rewrite filter_nil, filter_cons_True, filter_nil by done.
  rewrite (filter_none _ (filter _ cs)); [done|].
  intros x [_ Hx]%list_elem_of_filter. by apply Hfresh.
Qed.

(** X9.  A complaint that a signed-in user submits under their name is
    stored with their id as [user_id] and is theirs to see: it is in their
    list and its detail page loads it.  No other student's list has it. *)
Theorem own_complaint_is_listed rls d u files form env c v :
  c ∈ db_complaints (handleSubmit rls d (Some u) false files form env).1 →
  c ∉ db_complaints d →
  let d' := (handleSubmit rls d (Some u) false files form env).1 in
  c_user_id c = Some u ∧
  c ∈ fetchComplaints d' (Some u) ∧
  (∃ thread,
     fetchComplaintDetails d' (Some u) (c_id c) v
     = ({| dv_complaint := Some c; dv_messages := thread;
           dv_newMessage := dv_newMessage v |}, [])) ∧
  ∀ other p, other ≠ u → db_profiles d' !! other = Some p →
             p_role p = student → c ∉ fetchComplaints d' (Some other).
Proof.
  intros Hin Hnew d'.
  destruct (handleSubmit_new_row _ _ _ _ _ _ _ _ Hin Hnew)
    as (_ & Hu & _ & Hfresh & Hcs).
  fold d' in Hin, Hcs.
  assert (Hvis : holds (complaints_select_policy d' (Some u) c) = true).
  { rewrite complaints_select_policy_holds.
    by rewrite (bool_decide_eq_true_2 _ Hu). }
  split_and!; [done| | |].
  - by apply fetchComplaints_elem.
  - eexists. unfold fetchComplaintDetails.
    rewrite (select_new_complaint d' (Some u) (db_complaints d) c); try done.
    intros x Hx. by apply (complaint_exists_false _ _ _ Hfresh).
  - intros other p Hne Hp Hrole [_ Hv]%fetchComplaints_elem.
    rewrite complaints_select_policy_holds in Hv.
    rewrite (is_manager_or_admin_role _ _ _ Hp), Hrole in Hv.
    rewrite Hu in Hv.
    rewrite bool_decide_eq_false_2 in Hv by congruence.
    rewrite (bool_decide_eq_false_2 (student ≠ student)) in Hv
      by (intros Hn; by apply Hn).
    done.
Qed.

Lemma own_complaint_is_listed_witness :
  let d' := (handleSubmit true ex_store (Some ex_student) false [ex_file]
                          ex_form ex_submit_env).1 in
  (ex_submitted_named ∈ db_complaints d') ∧
  (ex_submitted_named ∉ db_complaints ex_store) ∧
  c_user_id ex_submitted_named = Some ex_student ∧
  ex_submitted_named ∈ fetchComplaints d' (Some ex_student).
Proof.
  intros d'.
  assert (Hin : ex_submitted_named ∈ db_complaints d') by by_compute.
  assert (Hnew : ex_submitted_named ∉ db_complaints ex_store) by by_compute.
  destruct (own_complaint_is_listed true ex_store ex_student [ex_file]
              ex_form ex_submit_env ex_submitted_named ex_view Hin Hnew)
    as (Hu & Hlist & _).
  split_and!; [exact Hin|exact Hnew|exact Hu|exact Hlist].
Defined.

(** *** Triage by a manager *)

Lemma update_complaints_manager d uid id set now :
  is_manager_or_admin d uid = true →
  (∀ c, c ∈ db_complaints d → c_id c = id →
        references_profile d (c_manager_id (set c)) = true) →
  update_complaints d uid id set now
  = ok (set_complaints d
          ((λ c, if bool_decide (c_id c = id)
                 then with_updated_at now (set c) else c)
           <$> db_complaints d)).
Proof.
  intros Hm Hfk. unfold update_complaints, complaints_update_policy.
  rewrite Hm. simpl.
  rewrite (proj2 (forallb_forall _ _)).
  2: { intros c Hc%list_elem_of_In. rewrite andb_true_r.
       destruct (decide (c_id c = id)) as [Hid|Hid].
       - rewrite (bool_decide_eq_true_2 _ Hid). simpl. by apply Hfk.
       - by rewrite (bool_decide_eq_false_2 _ Hid). }
  do 2 f_equal. apply list_fmap_ext. intros i c _.
  by rewrite andb_true_r.
Qed.


Lemma manager_role d u p :
  db_profiles d !! u = Some p → p_role p ≠ student →
  is_manager_or_admin d (Some u) = true.
Proof.
  intros Hp Hrole. rewrite (is_manager_or_admin_role _ _ _ Hp).
  by apply bool_decide_eq_true_2.
Qed.

(** X10.  A manager or admin can set any status on any complaint: the rows
    with the given id get the new status, whatever the old one was, and
    the time of the update as [updated_at]; every other column and every
    other row stays as it was, and success is reported. *)
Theorem manager_sets_any_status d u p complaintId newStatus now :
  db_profiles d !! u = Some p →
  p_role p ≠ student →
  well_formed d →
  updateComplaintStatus d (Some u) complaintId newStatus now
  = (set_complaints d
       ((λ c, if bool_decide (c_id c = complaintId)
              then with_updated_at now (with_status newStatus c) else c)
        <$> db_complaints d),
     [toast_success "Status updated successfully"]).
Proof.
  intros Hp Hrole (_ & _ & _ & Hfk & _). unfold updateComplaintStatus.
  rewrite update_complaints_manager; [done|by eapply manager_role|].
  intros c Hc _. simpl. by apply Hfk.
Qed.

(** X11.  A manager or admin can hand a complaint to anyone on the list
    [fetchManagers] gives, all of them managers or admins, and can take
    the assignment away again: the rows with the given id get the new
    [manager_id] and the time of the update, nothing else changes. *)
Theorem manager_assigns_listed_manager d u p complaintId m now :
  db_profiles d !! u = Some p →
  p_role p ≠ student →
  m ∈ fetchManagers d →
  (p_role m.2 = manager ∨ p_role m.2 = admin) ∧
  assignComplaint d (Some u) complaintId (Some m.1) now
  = (set_complaints d
       ((λ c, if bool_decide (c_id c = complaintId)
              then with_updated_at now (with_manager_id (Some m.1) c) else c)
        <$> db_complaints d),
     [toast_success "Complaint assigned successfully"]) ∧
  assignComplaint d (Some u) complaintId None now
  = (set_complaints d
       ((λ c, if bool_decide (c_id c = complaintId)
              then with_updated_at now (with_manager_id None c) else c)
        <$> db_complaints d),
     [toast_success "Assignment removed"]).
Proof.
  intros Hp Hrole [Hm Hin]%list_elem_of_filter.
  destruct m as [mid mp]. apply elem_of_map_to_list in Hin.
  pose proof (manager_role _ _ _ Hp Hrole) as Hu.
  unfold assignComplaint. split; [done|].
  rewrite !update_complaints_manager; try done.
  intros c _ _. simpl. by rewrite bool_decide_eq_true_2.
Qed.


(** X13.  The gate of the manager page and the policies of the store
    agree: [checkManagerAccess] lets a caller in, with their own profile,
    exactly when the store counts them as manager or admin; everyone else
    gets an error and no profile. *)
Theorem checkManagerAccess_agrees_with_policy d user :
  (is_manager_or_admin d user = true ↔
   ∃ u p, user = Some u ∧ db_profiles d !! u = Some p ∧
          checkManagerAccess d user = (Some p, [])) ∧
  (is_manager_or_admin d user = false ↔
   ∃ message, checkManagerAccess d user = (None, [toast_error message])).
Proof.
  unfold checkManagerAccess, is_manager_or_admin.
  destruct user as [u|]; simpl.
  2: { split; (split; [intros H|]).
       - done.
       - by intros (? & ? & ? & _).
       - by eexists.
       - done. }
  destruct (db_profiles d !! u) as [p|] eqn:Hp; simpl.
  2: { split; (split; [intros H|]).
       - done.
       - intros (? & ? & [= <-] & ? & _). congruence.
       - by eexists.
       - done. }
  destruct (p_role p) eqn:Hrole.
  - rewrite bool_decide_eq_false_2 by (intros [?|?]; congruence).
    rewrite !bool_decide_eq_true_2 by done. simpl.
    split; (split; [intros H|]).
    + done.
    + by intros (? & ? & ? & ? & ?).
    + by eexists.
    + done.
  - rewrite bool_decide_eq_true_2 by (by left).
    rewrite (bool_decide_eq_false_2 (manager ≠ manager))
      by (intros Hn; by apply Hn).
    simpl. split; (split; [intros H|]).
    + by exists u, p.
    + done.
    + done.
    + by intros (? & ?).
  - rewrite bool_decide_eq_true_2 by (by right).
    rewrite (bool_decide_eq_false_2 (admin ≠ admin))
      by (intros Hn; by apply Hn).
    rewrite andb_false_r.
    split; (split; [intros H|]).
    + by exists u, p.
    + done.
    + done.
    + by intros (? & ?).
Qed.

Lemma ex_store_well_formed : well_formed ex_store.
Proof.
  split_and!; try by_compute.
  - intros c Hc. revert c Hc. apply Forall_forall. by_compute.
  - intros m Hm. by apply elem_of_nil in Hm.
  - intros a Ha. by apply elem_of_nil in Ha.
Qed.

Lemma ex_manager_is_manager :
  db_profiles ex_store !! ex_manager = Some ex_manager_profile.
Proof. vm_compute. reflexivity. Qed.

Lemma manager_sets_any_status_witness :
  db_profiles ex_store !! ex_manager = Some ex_manager_profile ∧
  p_role ex_manager_profile ≠ student ∧
  well_formed ex_store ∧
  updateComplaintStatus ex_store (Some ex_manager) (c_id ex_complaint)
                        closed 400
  = (set_complaints ex_store
       [with_updated_at 400 (with_status closed ex_complaint);
        ex_anonymous_complaint],
     [toast_success "Status updated successfully"]).
Proof.
  assert (Hrole : p_role ex_manager_profile ≠ student) by discriminate.
  split_and!;
    [exact ex_manager_is_manager|exact Hrole|exact ex_store_well_formed|].
  rewrite (manager_sets_any_status ex_store ex_manager ex_manager_profile
             (c_id ex_complaint) closed 400 ex_manager_is_manager Hrole
             ex_store_well_formed).
  vm_compute. reflexivity.
Defined.

Lemma manager_assigns_listed_manager_witness :
  db_profiles ex_store !! ex_manager = Some ex_manager_profile ∧
  p_role ex_manager_profile ≠ student ∧
  ((ex_manager, ex_manager_profile) ∈ fetchManagers ex_store) ∧
  assignComplaint ex_store (Some ex_manager) (c_id ex_complaint)
                  (Some ex_manager) 400
  = (set_complaints ex_store
       [with_updated_at 400 (with_manager_id (Some ex_manager) ex_complaint);
        ex_anonymous_complaint],
     [toast_success "Complaint assigned successfully"]).
Proof.
  assert (Hrole : p_role ex_manager_profile ≠ student) by discriminate.
  assert (Hin : (ex_manager, ex_manager_profile) ∈ fetchManagers ex_store)
    by by_compute.
  split_and!; [exact ex_manager_is_manager|exact Hrole|exact Hin|].
  destruct (manager_assigns_listed_manager ex_store ex_manager
              ex_manager_profile (c_id ex_complaint)
              (ex_manager, ex_manager_profile) 400 ex_manager_is_manager
              Hrole Hin) as (_ & Hassign & _).
  change ((ex_manager, ex_manager_profile).1) with ex_manager in Hassign.
  rewrite Hassign. vm_compute. reflexivity.
Defined.


(** *** The dashboards *)

(** X14.  The status counters of a dashboard split its rows.  Without
    rows all four counters are zero.  One more row raises the total by one
    and exactly one of the three others by one: the counter of new
    complaints for status 'new', that of complaints in progress for
    'acknowledged' and 'in_progress', that of resolved complaints for
    'resolved' and 'closed'.  So every complaint is counted once and the
    three counters add up to the total. *)
Theorem complaint_stats_add_up data :
  let s := complaint_stats data in
  complaint_stats []
  = {| st_total := 0; st_new := 0; st_inProgress := 0; st_resolved := 0 |} ∧
  (∀ c,
     let s' := complaint_stats (c :: data) in
     st_total s' = S (st_total s) ∧
     (st_new s', st_inProgress s', st_resolved s')
     = match c_status c with
       | new => (S (st_new s), st_inProgress s, st_resolved s)
       | acknowledged | in_progress =>
           (st_new s, S (st_inProgress s), st_resolved s)
       | resolved | closed => (st_new s, st_inProgress s, S (st_resolved s))
       end) ∧
  st_total s = (st_new s + st_inProgress s + st_resolved s)%nat.
Proof.
  intros s. split_and!; [done| |].
  - intros c s'. split; [done|]. unfold s', s, complaint_stats. simpl.
    rewrite !filter_cons.
    destruct (c_status c);
      repeat (destruct (decide _) as [?|?]; try intuition congruence);
      done.
  - unfold s, complaint_stats. clear s. simpl.
    induction data as [|c data IH]; [done|].
    rewrite !filter_cons. simpl.
    destruct (c_status c);
      repeat (destruct (decide _) as [?|?]; try intuition congruence);
      simpl; lia.
Qed.

Section conditional_filter.
Context {A} (P : A → Prop) `{∀ x, Decision (P x)}.

Lemma cond_filter_elem (b : bool) (l : list A) r :
  r ∈ (if b then filter P l else l) ↔ r ∈ l ∧ (b = true → P r).
Proof.
  destruct b; [rewrite list_elem_of_filter|]; intuition congruence.
Qed.

Lemma cond_filter_sublist (b : bool) (l : list A) :
  (if b then filter P l else l) `sublist_of` l.
Proof. destruct b; [apply sublist_filter|done]. Qed.
End conditional_filter.

(** X15.  The filters of the manager dashboard keep the rows that pass
    every active filter, in the order they were loaded: the search text,
    when not empty, must occur in the lower-cased title or hub, and each
    selector not set to 'all' must equal the row's status, priority or
    hub.  With an empty search and all selectors on 'all' every row is
    shown. *)
Theorem applyFilters_keeps_matching_rows
    toLowerCase complaints searchQuery statusFilter priorityFilter hubFilter :
  let shown :=
    applyFilters toLowerCase complaints searchQuery statusFilter
                 priorityFilter hubFilter in
  shown `sublist_of` complaints ∧
  (∀ r, r ∈ shown ↔
        r ∈ complaints ∧
        (searchQuery ≠ [] →
         includes (toLowerCase (c_title r.1)) (toLowerCase searchQuery)
         || includes (toLowerCase (c_hub r.1)) (toLowerCase searchQuery)
         = true) ∧
        (statusFilter ≠ js "all" →
         complaint_status_text (c_status r.1) = statusFilter) ∧
        (priorityFilter ≠ js "all" →
         complaint_priority_text (c_priority r.1) = priorityFilter) ∧
        (hubFilter ≠ js "all" → c_hub r.1 = hubFilter)) ∧
  applyFilters toLowerCase complaints [] (js "all") (js "all") (js "all")
  = complaints.
Proof.
  unfold applyFilters.
  set (searched :=
    match searchQuery with
    | [] => complaints
    | _ => filter _ complaints
    end).
  assert (Hs : searched `sublist_of` complaints ∧
    ∀ r, r ∈ searched ↔ r ∈ complaints ∧
      (searchQuery ≠ [] →
       includes (toLowerCase (c_title r.1)) (toLowerCase searchQuery)
       || includes (toLowerCase (c_hub r.1)) (toLowerCase searchQuery)
       = true)).
  { unfold searched. destruct searchQuery as [|a q].
    - split; [done|]. intros r. intuition congruence.
    - split; [apply sublist_filter|]. intros r.
      rewrite list_elem_of_filter. intuition congruence. }
  destruct Hs as [Hsub Hsearch]. split_and!.
  - repeat (etrans; [apply cond_filter_sublist|]). done.
  - intros r. rewrite !cond_filter_elem, Hsearch.
    rewrite !bool_decide_eq_true. tauto.
  - done.
Qed.

Lemma first_occurrences_spec (l : list js_string) : ∀ seen,
  NoDup seen →
  let r := foldl (λ seen h, if bool_decide (h ∈ seen) then seen
                            else seen ++ [h]) seen l in
  NoDup r ∧ ∀ h, h ∈ r ↔ h ∈ seen ∨ h ∈ l.
Proof.
  induction l as [|x l IH]; intros seen Hnd; simpl.
  { split; [done|]. intros h. rewrite elem_of_nil. tauto. }
  destruct (decide (x ∈ seen)) as [Hx|Hx].
  - rewrite (bool_decide_eq_true_2 _ Hx).
    destruct (IH seen Hnd) as [Hr Hmem]. split; [done|].
    intros h. rewrite Hmem, elem_of_cons. split; [tauto|].
    intros [?|[->|?]]; tauto.
  - rewrite (bool_decide_eq_false_2 _ Hx).
    destruct (IH (seen ++ [x])) as [Hr Hmem].
    { apply NoDup_app. split_and!; [done| |apply NoDup_singleton].
      intros y Hy ->%list_elem_of_singleton. done. }
    split; [done|]. intros h.
    rewrite Hmem, elem_of_app, list_elem_of_singleton, elem_of_cons. tauto.
Qed.

(** X16.  The hub selector of the manager dashboard lists every hub of the
    loaded complaints exactly once.  Choosing a listed hub other than
    'all' shows the rows of that hub and only those, at least one. *)
Theorem uniqueHubs_lists_each_hub_once toLowerCase complaints :
  NoDup (uniqueHubs complaints) ∧
  (∀ h, h ∈ uniqueHubs complaints ↔
        ∃ r, r ∈ complaints ∧ c_hub r.1 = h) ∧
  (∀ h, h ∈ uniqueHubs complaints → h ≠ js "all" →
        applyFilters toLowerCase complaints [] (js "all") (js "all") h
        = filter (λ r, c_hub r.1 = h) complaints ∧
        filter (λ r, c_hub r.1 = h) complaints ≠ []).
Proof.
  unfold uniqueHubs.
  destruct (first_occurrences_spec ((λ c, c_hub c.1) <$> complaints) [])
    as [Hnd Hmem]; [apply NoDup_nil_2|].
  assert (Hhub : ∀ h,
    h ∈ foldl (λ seen h, if bool_decide (h ∈ seen) then seen
                         else seen ++ [h]) []
              ((λ c, c_hub c.1) <$> complaints) ↔
    ∃ r, r ∈ complaints ∧ c_hub r.1 = h).
  { intros h. rewrite Hmem, elem_of_nil, list_elem_of_fmap.
    split.
    - intros [[]|(r & -> & Hr)]. by exists r.
    - intros (r & Hr & <-). right. by exists r. }
  split_and!; [done|done|].
  intros h (r & Hr & Hh)%Hhub Hall. split.
  - unfold applyFilters. simpl.
    by rewrite (bool_decide_eq_true_2 _ Hall).
  - intros Hnil.
    by apply (filter_nil_not_elem_of (λ r, c_hub r.1 = h) complaints r Hnil).
Qed.

(** X17.  The manager's list never names the submitter of a complaint
    submitted with the anonymous switch on: the row carries no joined
    profile name and the label shown is 'Anonymous'. *)
Theorem anonymous_submission_shows_no_name
    rls d user files form env c uid row :
  c ∈ db_complaints (handleSubmit rls d user true files form env).1 →
  c ∉ db_complaints d →
  row ∈ fetchComplaints_manager
          (handleSubmit rls d user true files form env).1 uid →
  row.1 = c →
  row.2 = None ∧ submitter_label row = js "Anonymous".
Proof.
  intros Hin Hnew Hrow Hc.
  destruct (handleSubmit_anonymous_row _ _ _ _ _ _ _ Hin Hnew)
    as (_ & Hu & Ha & _).
  unfold fetchComplaints_manager in Hrow.
  apply list_elem_of_fmap in Hrow as (x & -> & _). simpl in *. subst x.
  unfold submitter_label. simpl. rewrite Hu, Ha. done.
Qed.

Lemma anonymous_submission_shows_no_name_witness :
  let d' := (handleSubmit false ex_store (Some ex_student) true [ex_file]
                          ex_form ex_submit_env).1 in
  (ex_submitted ∈ db_complaints d') ∧
  (ex_submitted ∉ db_complaints ex_store) ∧
  ((ex_submitted, None) ∈ fetchComplaints_manager d' (Some ex_manager)) ∧
  submitter_label (ex_submitted, None) = js "Anonymous".
Proof.
  intros d'.
  assert (Hin : ex_submitted ∈ db_complaints d') by by_compute.
  assert (Hnew : ex_submitted ∉ db_complaints ex_store) by by_compute.
  assert (Hrow : (ex_submitted, None)
                 ∈ fetchComplaints_manager d' (Some ex_manager))
    by by_compute.
  destruct (anonymous_submission_shows_no_name false ex_store
              (Some ex_student) [ex_file] ex_form ex_submit_env ex_submitted
              (Some ex_manager) (ex_submitted, None) Hin Hnew Hrow eq_refl)
    as [_ Hlabel].
  split_and!; [exact Hin|exact Hnew|exact Hrow|exact Hlabel].
Defined.

(** *** Profiles *)

(** X18.  When [handle_new_user] goes through, the new user had no profile
    and now has one with the role their sign-up metadata names, 'student'
    only when the metadata names none, and the name from the metadata or
    'User'; a role of 'manager' or 'admin' in the metadata makes the new
    user a manager or admin for the policies.  Nothing else changes. *)
Theorem handle_new_user_profile d new_id meta_name meta_role d' :
  handle_new_user d new_id meta_name meta_role = ok d' →
  ∃ role,
    (meta_role = None ∧ role = student ∨
     ∃ text, meta_role = Some text ∧ user_role_in text = Some role) ∧
    db_profiles d !! new_id = None ∧
    d' = set_profiles d
           (<[new_id := {| p_name := default (js "User") meta_name;
                           p_role := role; p_hub := None |}]>
              (db_profiles d)) ∧
    is_manager_or_admin d' (Some new_id) = bool_decide (role ≠ student).
Proof.
  unfold handle_new_user. intros Hok.
  assert (∃ role,
    (meta_role = None ∧ role = student ∨
     ∃ text, meta_role = Some text ∧ user_role_in text = Some role) ∧
    match db_profiles d !! new_id with
    | Some _ => err (unique_violation "profiles")
    | None =>
        ok (set_profiles d
              (<[new_id := {| p_name := default (js "User") meta_name;
                              p_role := role; p_hub := None |}]>
                 (db_profiles d)))
    end = ok d') as (role & Hrole & Hres).
  { destruct meta_role as [text|]; simpl in Hok.
    - destruct (user_role_in text) as [role|] eqn:Htext; [|done].
      exists role. split; [right; by exists text|done].
    - exists student. split; [by left|done]. }
  exists role. destruct (db_profiles d !! new_id) eqn:Hnone; [done|].
  injection Hres as <-. split_and!; try done.
  rewrite (is_manager_or_admin_role _ new_id
             {| p_name := default (js "User") meta_name; p_role := role;
                p_hub := None |}); [done|].
  simpl. apply lookup_insert_eq.
Qed.

Lemma handle_new_user_profile_witness :
  handle_new_user ex_store ex_unknown None (Some (js "admin"))
  = ok (set_profiles ex_store
          (<[ex_unknown := {| p_name := js "User"; p_role := admin;
                              p_hub := None |}]> (db_profiles ex_store))) ∧
  is_manager_or_admin
    (set_profiles ex_store
       (<[ex_unknown := {| p_name := js "User"; p_role := admin;
                           p_hub := None |}]> (db_profiles ex_store)))
    (Some ex_unknown) = true.
Proof.
  assert (H : handle_new_user ex_store ex_unknown None (Some (js "admin"))
    = ok (set_profiles ex_store
            (<[ex_unknown := {| p_name := js "User"; p_role := admin;
                                p_hub := None |}]> (db_profiles ex_store))))
    by (vm_compute; reflexivity).
  split; [exact H|].
  destruct (handle_new_user_profile _ _ _ _ _ H)
    as (role & [[[=] _]|(text & [= <-] & [= <-])] & _ & _ & Hm).
  exact Hm.
Defined.

(** X19.  An UPDATE on [profiles] reaches the caller's own row at most:
    every other profile stays as it is, and a request without a session
    changes nothing.  On their own row the caller may set any column,
    the role included. *)
Theorem profile_update_reaches_own_row_only d uid matches set :
  let d' := update_profiles d uid matches set in
  (∀ id, uid ≠ Some id → db_profiles d' !! id = db_profiles d !! id) ∧
  (∀ u, uid = Some u →
        db_profiles d' !! u
        = (λ p, if matches u p then set p else p) <$> db_profiles d !! u) ∧
  db_complaints d' = db_complaints d ∧ db_messages d' = db_messages d ∧
  db_attachments d' = db_attachments d.
Proof.
  unfold update_profiles, profiles_update_policy. simpl. split_and!; try done.
  - intros id Hne. rewrite map_lookup_imap.
    destruct (db_profiles d !! id) as [p|]; [|done]. simpl.
    destruct uid as [u|]; simpl; [|by rewrite andb_false_r].
    rewrite bool_decide_eq_false_2 by congruence.
    by rewrite andb_false_r.
  - intros u ->. rewrite map_lookup_imap.
    destruct (db_profiles d !! u) as [p|]; [|done]. simpl.
    rewrite bool_decide_eq_true_2 by done. by rewrite andb_true_r.
Qed.

(** *** Who sees and who signs messages *)

Lemma accessible_complaint_iff d uid id :
  accessible_complaint d uid id = true ↔
  ∃ c, c ∈ db_complaints d ∧ c_id c = id ∧
       holds (complaints_select_policy d uid c) = true.
Proof.
  unfold accessible_complaint. rewrite existsb_exists. split.
  - intros (c & Hc%list_elem_of_In & [Hid Hv]%andb_prop).
    apply bool_decide_eq_true in Hid. exists c. split_and!; try done.
    unfold complaints_select_policy. by rewrite sql_eq_sym.
  - intros (c & Hc & Hid & Hv). exists c. split; [by apply list_elem_of_In|].
    rewrite (bool_decide_eq_true_2 _ Hid). simpl.
    unfold complaints_select_policy in Hv. by rewrite sql_eq_sym.
Qed.

(** X20.  A student is shown the messages of the complaints stored under
    their id, all of them and no others; whether a message is marked
    internal plays no part.  A manager or admin is shown every message of
    every stored complaint. *)
Theorem messages_follow_the_complaint d u p m :
  db_profiles d !! u = Some p →
  m ∈ select_messages d (Some u) ↔
  m ∈ db_messages d ∧
  ∃ c, c ∈ db_complaints d ∧ c_id c = m_complaint_id m ∧
       (p_role p = student → c_user_id c = Some u).
Proof.
  intros Hp. unfold select_messages, messages_select_policy.
  rewrite list_elem_of_filter, holds_some, accessible_complaint_iff.
  assert (Hvis : ∀ c, holds (complaints_select_policy d (Some u) c) = true ↔
                      (p_role p = student → c_user_id c = Some u)).
  { intros c. rewrite complaints_select_policy_holds.
    rewrite (is_manager_or_admin_role _ _ _ Hp).
    rewrite orb_true_iff, !bool_decide_eq_true.
    destruct (decide (p_role p = student)); intuition. }
  split.
  - intros [(c & Hc & Hid & Hv) Hm]. split; [done|].
    exists c. split_and!; [done|done|by apply Hvis].
  - intros [Hm (c & Hc & Hid & Hv)]. split; [|done].
    exists c. split_and!; [done|done|by apply Hvis].
Qed.

Lemma messages_follow_the_complaint_witness :
  db_profiles ex_store_with_note !! ex_student
  = Some {| p_name := js "Asha"; p_role := student;
            p_hub := Some (js "Kochi Hub") |} ∧
  m_is_internal ex_note = Some true ∧
  ex_note ∈ select_messages ex_store_with_note (Some ex_student).
Proof.
  assert (Hp : db_profiles ex_store_with_note !! ex_student
               = Some {| p_name := js "Asha"; p_role := student;
                         p_hub := Some (js "Kochi Hub") |})
    by (vm_compute; reflexivity).
  split; [exact Hp|]. split; [reflexivity|].
  apply (messages_follow_the_complaint ex_store_with_note ex_student _
           ex_note Hp).
  split; [by_compute|]. exists ex_complaint.
  split_and!; [by_compute|reflexivity|reflexivity].
Defined.

(** X21.  The store never files a message under someone else's name: an
    inserted message has the caller as sender, or none.  Nor does it file
    a complaint under someone else's name unless the row is marked
    anonymous. *)
Theorem store_attributes_rows_to_the_caller d uid :
  (∀ row d', insert_message d uid row = ok d' →
             m_sender_id row = None ∨ m_sender_id row = uid) ∧
  (∀ rls row d' c, insert_complaint rls d uid row = ok (d', c) →
                   c_is_anonymous row = Some true ∨
                   (c_user_id row = uid ∧ is_Some uid)).
Proof.
  split.
  - intros row d'. unfold insert_message, messages_insert_policy.
    destruct (m_sender_id row) as [s|]; [|by left].
    destruct uid as [u|]; simpl; [|done].
    destruct (decide (u = s)) as [->|Hne]; [by right|].
    by rewrite bool_decide_eq_false_2.
  - intros rls row d' c. unfold insert_complaint, complaints_insert_policy.
    destruct (c_is_anonymous row) as [[]|]; [by left|..];
      (destruct uid as [u|], (c_user_id row) as [s|]; simpl; try done;
       destruct (decide (u = s)) as [->|Hne]; [by right|];
       by rewrite bool_decide_eq_false_2).
Qed.

(** *** The constraints of the schema *)

Lemma complaint_exists_iff d id :
  complaint_exists d id = true ↔ id ∈ c_id <$> db_complaints d.
Proof.
  unfold complaint_exists. rewrite existsb_exists, list_elem_of_fmap. split.
  - intros (c & Hc%list_elem_of_In & Hid%bool_decide_eq_true).
    by exists c.
  - intros (c & -> & Hc). exists c.
    split; [by apply list_elem_of_In|by apply bool_decide_eq_true].
Qed.

Lemma existsb_false_not_elem {A B} `{EqDecision B} (f : A → B) (l : list A) y :
  existsb (λ x, bool_decide (f x = y)) l = false → y ∉ f <$> l.
Proof.
  intros Hex (x & -> & Hx)%list_elem_of_fmap.
  assert (existsb (λ z, bool_decide (f z = f x)) l = true); [|congruence].
  apply existsb_exists. exists x.
  split; [by apply list_elem_of_In|by apply bool_decide_eq_true].
Qed.

Lemma NoDup_snoc_fresh {A} (l : list A) x : NoDup l → x ∉ l → NoDup (l ++ [x]).
Proof.
  intros Hl Hx. apply NoDup_app. split_and!; [done| |apply NoDup_singleton].
  intros y Hy ->%list_elem_of_singleton. done.
Qed.

(** Well-formedness looks at the keys of the complaints and at the
    profiles only, apart from the rows themselves. *)
Lemma well_formed_intro d d' :
  well_formed d →
  db_profiles d' = db_profiles d →
  c_id <$> db_complaints d ⊆ c_id <$> db_complaints d' →
  NoDup (c_id <$> db_complaints d') →
  NoDup (m_id <$> db_messages d') →
  NoDup (a_id <$> db_attachments d') →
  (∀ c, c ∈ db_complaints d' →
        (∃ c0, c0 ∈ db_complaints d ∧ c_user_id c = c_user_id c0 ∧
               (c_manager_id c = c_manager_id c0 ∨
                references_profile d (c_manager_id c) = true)) ∨
        (references_profile d (c_user_id c) = true ∧
         references_profile d (c_manager_id c) = true)) →
  (∀ m, m ∈ db_messages d' →
        m ∈ db_messages d ∨
        (complaint_exists d' (m_complaint_id m) = true ∧
         references_profile d (m_sender_id m) = true)) →
  (∀ a, a ∈ db_attachments d' →
        a ∈ db_attachments d ∨
        (complaint_exists d' (a_complaint_id a) = true ∧
         references_profile d (a_uploader_id a) = true)) →
  well_formed d'.
Proof.
  intros (_ & _ & _ & Hc & Hm & Ha) Hp Hids Hnc Hnm Hna Hc' Hm' Ha'.
  assert (Href : ∀ r, references_profile d' r = references_profile d r).
  { intros r. unfold references_profile. by rewrite Hp. }
  assert (Hex : ∀ id, complaint_exists d id = true →
                      complaint_exists d' id = true).
  { intros id. rewrite !complaint_exists_iff. apply Hids. }
  split_and!; try done.
  - intros c [(c0 & Hc0 & Hu & Hmg)|[? ?]]%Hc'; rewrite !Href; [|done].
    destruct (Hc c0 Hc0) as [? ?]. rewrite Hu.
    split; [done|]. destruct Hmg as [->|?]; done.
  - intros m [Hold|[? ?]]%Hm'; rewrite Href; [|done].
    destruct (Hm m Hold) as [? ?]. split; [by apply Hex|done].
  - intros a [Hold|[? ?]]%Ha'; rewrite Href; [|done].
    destruct (Ha a Hold) as [? ?]. split; [by apply Hex|done].
Qed.

Lemma insert_complaint_checks rls d uid row d1 c :
  insert_complaint rls d uid row = ok (d1, c) →
  d1 = set_complaints d (db_complaints d ++ [row]) ∧
  complaint_exists d (c_id row) = false ∧
  references_profile d (c_user_id row) = true ∧
  references_profile d (c_manager_id row) = true.
Proof.
  unfold insert_complaint.
  destruct (negb (holds (complaints_insert_policy uid row))); [done|].
  destruct (rls && _); [done|].
  destruct (complaint_exists d (c_id row)); [done|].
  destruct (references_profile d (c_user_id row)); [|done].
  destruct (references_profile d (c_manager_id row)); [|done].
  by intros [= <- <-].
Qed.

Lemma insert_message_checks d uid row d' :
  insert_message d uid row = ok d' →
  d' = set_messages d (db_messages d ++ [row]) ∧
  (m_id row ∉ m_id <$> db_messages d) ∧
  complaint_exists d (m_complaint_id row) = true ∧
  references_profile d (m_sender_id row) = true.
Proof.
  unfold insert_message.
  destruct (negb (holds (messages_insert_policy uid row))); [done|].
  destruct (existsb _ (db_messages d)) eqn:Hid; [done|].
  destruct (complaint_exists d (m_complaint_id row)); [|done].
  destruct (references_profile d (m_sender_id row)); [|done].
  intros [= <-]. split_and!; try done.
  by apply existsb_false_not_elem.
Qed.

Lemma insert_attachment_checks d uid row d' :
  insert_attachment d uid row = ok d' →
  d' = set_attachments d (db_attachments d ++ [row]) ∧
  (a_id row ∉ a_id <$> db_attachments d) ∧
  complaint_exists d (a_complaint_id row) = true ∧
  references_profile d (a_uploader_id row) = true.
Proof.
  unfold insert_attachment.
  destruct (negb (holds (attachments_insert_policy uid row))); [done|].
  destruct (negb (default true _)); [done|].
  destruct (existsb _ (db_attachments d)) eqn:Hid; [done|].
  destruct (complaint_exists d (a_complaint_id row)); [|done].
  destruct (references_profile d (a_uploader_id row)); [|done].
  intros [= <-]. split_and!; try done.
  by apply existsb_false_not_elem.
Qed.

Lemma well_formed_insert_complaint rls d uid row d1 c :
  well_formed d → insert_complaint rls d uid row = ok (d1, c) →
  well_formed d1.
Proof.
  intros Hwf (-> & Hfresh & Hu & Hm)%insert_complaint_checks.
  pose proof Hwf as (Hnc & Hnm & Hna & _).
  apply (well_formed_intro d); try done; simpl.
  - rewrite fmap_app. intros x Hx. apply elem_of_app. by left.
  - rewrite fmap_app. apply NoDup_snoc_fresh; [done|].
    intros Hin%complaint_exists_iff. congruence.
  - intros x [Hx| ->%list_elem_of_singleton]%elem_of_app; [|by right].
    left. exists x. split_and!; try done. by left.
  - intros m Hm'. by left.
  - intros a Ha'. by left.
Qed.

Lemma well_formed_storage_upload d uid b name f d' :
  well_formed d → storage_upload d uid b name f = ok d' → well_formed d'.
Proof.
  intros Hwf (Hp & Hc & Hm & Ha & _)%storage_upload_tables.
  pose proof Hwf as (Hnc & Hnm & Hna & _).
  apply (well_formed_intro d); rewrite ?Hc, ?Hm, ?Ha; try done.
  - intros x Hx. left. exists x. split_and!; try done. by left.
  - intros m Hm'. by left.
  - intros a Ha'. by left.
Qed.

Lemma well_formed_insert_attachment d uid row d' :
  well_formed d → insert_attachment d uid row = ok d' → well_formed d'.
Proof.
  intros Hwf (-> & Hfresh & Hc & Hu)%insert_attachment_checks.
  pose proof Hwf as (Hnc & Hnm & Hna & _).
  apply (well_formed_intro d); try done; simpl.
  - rewrite fmap_app. by apply NoDup_snoc_fresh.
  - intros x Hx. left. exists x. split_and!; try done. by left.
  - intros m Hm'. by left.
  - intros a [Ha'| ->%list_elem_of_singleton]%elem_of_app; [by left|by right].
Qed.

Lemma well_formed_insert_message d uid row d' :
  well_formed d → insert_message d uid row = ok d' → well_formed d'.
Proof.
  intros Hwf (-> & Hfresh & Hc & Hu)%insert_message_checks.
  pose proof Hwf as (Hnc & Hnm & Hna & _).
  apply (well_formed_intro d); try done; simpl.
  - rewrite fmap_app. by apply NoDup_snoc_fresh.
  - intros x Hx. left. exists x. split_and!; try done. by left.
  - intros m [Hm'| ->%list_elem_of_singleton]%elem_of_app; [by left|by right].
  - intros a Ha'. by left.
Qed.

Lemma well_formed_upload_files files : ∀ d user anon cid env i,
  well_formed d → well_formed (upload_files d user anon cid env i files).
Proof.
  induction files as [|f files IH]; intros d user anon cid env i Hwf; simpl;
    [done|].
  apply IH.
  destruct (storage_upload d user _ _ f) as [du|e] eqn:Hup; [|done].
  apply (well_formed_storage_upload _ _ _ _ _ _ Hwf) in Hup.
  destruct (insert_attachment du user _) as [da|e] eqn:Hins; [|done].
  by apply (well_formed_insert_attachment _ _ _ _ Hup) in Hins.
Qed.

Lemma well_formed_update_complaints d uid id set now d' :
  well_formed d →
  (∀ c, c_id (set c) = c_id c ∧ c_user_id (set c) = c_user_id c) →
  update_complaints d uid id set now = ok d' →
  well_formed d'.
Proof.
  intros Hwf Hset. unfold update_complaints.
  destruct (forallb _ (db_complaints d)) eqn:Hfk; [|done].
  intros [= <-]. rewrite forallb_forall in Hfk.
  pose proof Hwf as (Hnc & Hnm & Hna & _).
  match goal with |- well_formed (set_complaints d ?r) => set (rows := r) end.
  assert (Hids : c_id <$> rows = c_id <$> db_complaints d).
  { unfold rows. rewrite <-list_fmap_compose. apply list_fmap_ext.
    intros i c _. simpl. destruct (_ && _); [|done]. simpl. apply Hset. }
  apply (well_formed_intro d); try done;
    cbn [db_complaints db_messages db_attachments set_complaints].
  - by rewrite Hids.
  - by rewrite Hids.
  - intros x (c & -> & Hc)%list_elem_of_fmap. left. exists c.
    split; [done|].
    specialize (Hfk c (proj1 (list_elem_of_In _ _) Hc)).
    simpl in Hfk |- *.
    destruct (bool_decide (c_id c = id)), (is_manager_or_admin d uid);
      simpl in *; (split; [by destruct (Hset c)|]);
      first [by right|by left].
  - intros m Hm'. by left.
  - intros a Ha'. by left.
Qed.

Lemma well_formed_run d a : well_formed d → well_formed (run d a).
Proof.
  intros Hwf.
  destruct a as [rls user anon files form env|user id s now|user id m now
                |user id v env|user matches set|user matches|user matches];
    cbn [run].
  - unfold handleSubmit.
    destruct (complaintSchema (read_form form)); simpl; [|done].
    destruct (complaintData _ _ _ _) as [row|e]; simpl; [|done].
    destruct (insert_complaint _ _ _ _) as [[d1 c]|e] eqn:Hins; simpl;
      [|done].
    apply well_formed_upload_files.
    by apply (well_formed_insert_complaint _ _ _ _ _ _ Hwf Hins).
  - unfold updateComplaintStatus.
    destruct (update_complaints _ _ _ _ _) as [d'|e] eqn:Hup; simpl; [|done].
    by apply (well_formed_update_complaints _ _ _ _ _ _ Hwf) in Hup.
  - unfold assignComplaint.
    destruct (update_complaints _ _ _ _ _) as [d'|e] eqn:Hup; simpl; [|done].
    by apply (well_formed_update_complaints _ _ _ _ _ _ Hwf) in Hup.
  - destruct (sendMessage_store d user id v env)
      as [->|(c & _ & _ & Hins & _)]; [done|].
    by apply (well_formed_insert_message _ _ _ _ Hwf) in Hins.
  - by rewrite update_messages_denied.
  - by rewrite delete_messages_denied.
  - by rewrite delete_complaints_denied.
Qed.

(** X22.  Whatever the pages do, the store keeps the constraints of its
    schema: the ids of complaints, of messages and of attachments stay
    distinct, and every message and attachment belongs to a stored
    complaint and every submitter, manager, sender and uploader named is a
    stored profile. *)
Theorem well_formed_is_kept d actions :
  well_formed d → well_formed (run_all d actions).
Proof.
  unfold run_all. revert d.
  induction actions as [|a actions IH]; intros d Hwf; simpl; [done|].
  apply IH. by apply well_formed_run.
Qed.

Lemma well_formed_is_kept_witness :
  well_formed ex_store ∧
  well_formed
    (run_all ex_store
       [act_submit true (Some ex_student) false [ex_file] ex_form
          ex_submit_env;
        act_update_status (Some ex_manager) (c_id ex_complaint) closed 400;
        act_send_message (Some ex_manager) (c_id ex_anonymous_complaint)
          ex_manager_view ex_message_env]).
Proof.
  split; [exact ex_store_well_formed|].
  apply well_formed_is_kept. exact ex_store_well_formed.
Defined.

(** *** From the form to the stored rows *)

Lemma files_state_sizes events f :
  f ∈ foldl files_step [] events → file_size f ≤ 10 * 1024 * 1024.
Proof.
  assert (H : ∀ prev,
    Forall (λ f, file_size f ≤ 10 * 1024 * 1024) prev →
    Forall (λ f, file_size f ≤ 10 * 1024 * 1024)
           (foldl files_step prev events)).
  { induction events as [|e events IH]; intros prev Hprev; simpl; [done|].
    apply IH. destruct e as [sel|i]; simpl.
    - apply Forall_take, Forall_app. split; [done|].
      apply Forall_forall. intros g [Hg _]%list_elem_of_filter.
      apply N.ltb_ge in Hg. exact Hg.
    - unfold removeFile. by apply Forall_delete. }
  intros Hf. specialize (H [] (Forall_nil_2 _)).
  rewrite Forall_forall in H. by apply H.
Qed.

(** X23.  The limit of the form reaches the table: whatever was selected and
    removed in the form, every file chosen is at most 10 MiB, and every
    attachment row that a submission of the chosen files records carries a
    size of at most 10485760 bytes, well inside the INTEGER column. *)
Theorem chosen_files_fit_the_size_column events rls d user anon form env :
  let files := foldl files_step [] events in
  Forall (λ f, file_size f ≤ 10485760) files ∧
  ∃ new,
    db_attachments (handleSubmit rls d user anon files form env).1
    = db_attachments d ++ new ∧
    Forall (λ a, ∃ n, a_file_size a = Some n ∧ n ≤ 10485760 ∧ n < 2 ^ 31)
           new.
Proof.
  intros files.
  assert (Hsize : ∀ f, f ∈ files → file_size f ≤ 10485760).
  { intros f Hf. by apply files_state_sizes in Hf. }
  split; [by apply Forall_forall|].
  destruct (handleSubmit_rows rls d user anon files form env)
    as (_ & new & Heq & Hnew).
  exists new. split; [done|].
  eapply Forall_impl; [exact Hnew|].
  intros a (_ & _ & f & Hf & _ & _ & _ & Ha). exists (file_size f).
  split; [done|]. apply Hsize in Hf. split; [done|].
  eapply N.le_lt_trans; [exact Hf|]. by vm_compute.
Qed.

(** *** The detail page *)

Lemma filter_by_key {A B} `{EqDecision B} (f : A → B) (l : list A) x :
  NoDup (f <$> l) → x ∈ l → filter (λ y, f y = f x) l = [x].
Proof.
  induction l as [|y l IH]; intros Hnd Hx; [by apply elem_of_nil in Hx|].
  rewrite fmap_cons in Hnd. apply NoDup_cons in Hnd as [Hy Hnd].
  apply elem_of_cons in Hx as [->|Hx].
  - rewrite filter_cons_True by done. f_equal.
    apply filter_none. intros z Hz Heq.
    apply Hy. rewrite <-Heq. apply list_elem_of_fmap. by exists z.
  - rewrite filter_cons_False; [by apply IH|].
    intros Heq. apply Hy. rewrite Heq. apply list_elem_of_fmap. by exists x.
Qed.

Lemma filter_swap {A} (P Q : A → Prop) `{∀ x, Decision (P x)}
    `{∀ x, Decision (Q x)} (l : list A) :
  filter P (filter Q l) = filter Q (filter P l).
Proof.
  induction l as [|x l IH]; [done|].
  destruct (decide (P x)), (decide (Q x));
    rewrite ?filter_cons_True, ?filter_cons_False by done;
    rewrite ?filter_cons_True, ?filter_cons_False by done; by f_equal.
Qed.

(** X24.  In a store whose complaint ids are distinct, the detail page of a
    stored complaint loads for exactly the callers the read policy passes.
    For them the page shows the complaint and its whole thread, every
    stored message of the complaint, internal or not, oldest first, and
    leaves the typed text alone; for anyone else the page keeps its state
    and shows one error. *)
Theorem detail_page_follows_the_read_policy d uid c v :
  NoDup (c_id <$> db_complaints d) →
  c ∈ db_complaints d →
  let r := fetchComplaintDetails d uid (c_id c) v in
  (holds (complaints_select_policy d uid c) = true →
   dv_complaint r.1 = Some c ∧
   dv_newMessage r.1 = dv_newMessage v ∧
   r.2 = [] ∧
   StronglySorted older_first (dv_messages r.1) ∧
   dv_messages r.1
   ≡ₚ filter (λ m, m_complaint_id m = c_id c) (db_messages d)) ∧
  (holds (complaints_select_policy d uid c) = false →
   r = (v, [toast_error "Failed to load complaint details"])).
Proof.
  intros Hnd Hc r. unfold r, fetchComplaintDetails, select_complaints.
  rewrite filter_swap, (filter_by_key c_id _ c Hnd Hc).
  split; intros Hvis.
  - rewrite filter_cons_True, filter_nil by done. simpl.
    split_and!; try done.
    + apply (StronglySorted_merge_sort older_first).
    + rewrite merge_sort_Permutation.
      unfold select_messages. rewrite filter_swap.
      rewrite (filter_all (λ m, holds (messages_select_policy d uid m) = true));
        [done|].
      intros m [Hm _]%list_elem_of_filter.
      unfold messages_select_policy. rewrite holds_some.
      apply accessible_complaint_iff. exists c. by rewrite Hm.
  - rewrite filter_cons_False by congruence. done.
Qed.

Lemma detail_page_follows_the_read_policy_witness :
  NoDup (c_id <$> db_complaints ex_store_with_note) ∧
  (ex_complaint ∈ db_complaints ex_store_with_note) ∧
  holds (complaints_select_policy ex_store_with_note (Some ex_student)
           ex_complaint) = true ∧
  dv_messages
    (fetchComplaintDetails ex_store_with_note (Some ex_student)
       (c_id ex_complaint) ex_view).1
  ≡ₚ [ex_note].
Proof.
  assert (Hnd : NoDup (c_id <$> db_complaints ex_store_with_note))
    by by_compute.
  assert (Hc : ex_complaint ∈ db_complaints ex_store_with_note)
    by by_compute.
  assert (Hvis : holds (complaints_select_policy ex_store_with_note
                          (Some ex_student) ex_complaint) = true)
    by (vm_compute; reflexivity).
  split_and!; [exact Hnd|exact Hc|exact Hvis|].
  destruct (detail_page_follows_the_read_policy ex_store_with_note
              (Some ex_student) ex_complaint ex_view Hnd Hc) as [Hload _].
  destruct (Hload Hvis) as (_ & _ & _ & _ & Hthread).
  rewrite Hthread. vm_compute. reflexivity.
Defined.

(** *** Choosing files *)

(** X25.  A new selection never displaces a file already chosen: while no
    more than five are chosen they stay at the front, in their order.
    Every file kept comes from the earlier ones or is a selected file of at
    most 10 MiB.  The names reported are exactly those of the selected
    files over 10 MiB; a file left out only because five are already there
    is not reported.  When earlier and selected files together are no more
    than five, every selected file of at most 10 MiB is kept. *)
Theorem handleFileChange_keeps_and_reports prev sel :
  (length prev ≤ 5)%nat →
  let r := handleFileChange prev sel in
  prev `prefix_of` r.1 ∧
  (∀ f, f ∈ r.1 → f ∈ prev ∨ (f ∈ sel ∧ file_size f ≤ 10485760)) ∧
  (∀ n, n ∈ r.2 ↔
        ∃ f, f ∈ sel ∧ file_name f = n ∧ 10485760 < file_size f) ∧
  ((length prev + length sel ≤ 5)%nat →
   ∀ f, f ∈ sel → file_size f ≤ 10485760 → f ∈ r.1).
Proof.
  intros Hprev r. unfold r, handleFileChange. simpl.
  change (10 * 1024 * 1024) with 10485760.
  set (valid := filter (λ f, (10485760 <? file_size f) = false) sel).
  split_and!.
  - rewrite take_app, (take_ge prev) by lia. by eexists.
  - intros f Hf%subseteq_take.
    apply elem_of_app in Hf as [Hf|[Hf Hin]%list_elem_of_filter]; [by left|].
    right. split; [done|]. by apply N.ltb_ge.
  - intros n. rewrite list_elem_of_fmap. split.
    + intros (f & -> & [Hf Hin]%list_elem_of_filter). exists f.
      split_and!; try done. by apply N.ltb_lt.
    + intros (f & Hin & <- & Hf). exists f. split; [done|].
      apply list_elem_of_filter. split; [|done]. by apply N.ltb_lt.
  - intros Hroom f Hin Hf.
    rewrite take_ge.
    + apply elem_of_app. right. apply list_elem_of_filter.
      split; [|done]. by apply N.ltb_ge.
    + rewrite length_app. pose proof (length_filter
        (λ f, (10485760 <? file_size f) = false) sel). unfold valid. lia.
Qed.

Lemma handleFileChange_keeps_and_reports_witness :
  (length [ex_file] ≤ 5)%nat ∧
  [ex_file] `prefix_of`
    (handleFileChange [ex_file]
       [{| file_name := js "dump.bin"; file_size := 10485761;
           file_type := js "application/octet-stream" |}]).1.
Proof.
  assert (Hlen : (length [ex_file] ≤ 5)%nat) by (simpl; lia).
  split; [exact Hlen|].
  apply (handleFileChange_keeps_and_reports [ex_file] _ Hlen).
Defined.
